(** * Email-based resource lookup and OAuth adapters

    A shallow embedding of
    [api/controllers/console/workspace/user_email_resources.py] and
    [api/libs/oauth.py], followed by the properties of the two request
    handlers and of the three OAuth providers.

    Integers are Python integers (unbounded), hence [Z].  Identifiers
    (UUID columns) and e-mail addresses are strings.  Database tables are
    lists of rows in storage order. *)

From Stdlib Require Import ZArith List String Ascii Bool Lia.
From Stdlib Require Import Sorting.Sorted Sorting.Permutation.
From Stdlib Require Import DecimalString.
Import ListNotations.
Local Open Scope string_scope.
Local Open Scope Z_scope.
Set Warnings "-register-all".

(* ===================================================================== *)
(** * Part I: the query layer used by the handlers                        *)
(* ===================================================================== *)

(** The SQLAlchemy query operators the handlers call, read on lists of
    rows.  [filter] is [List.filter]; criteria are boolean functions of a
    row.  No column used in a criterion is nullable, so SQL's three-valued
    logic collapses to [bool]. *)
Module Query.

Section Operators.
Context {A : Type}.

(** [query.first()]: the first row of the result, [None] when empty. *)
Definition first (q : list A) : option A :=
  match q with
  | [] => None
  | x :: _ => Some x
  end.

(** [query.count()]. *)
Definition count (q : list A) : Z := Z.of_nat (List.length q).

(** [query.all()]. *)
Definition all (q : list A) : list A := q.

(** [query.offset(n)]: skip [n] rows.  The handlers pass [n] to the
    engine as it is; SQL defines OFFSET for [n >= 0] only.  For a
    negative [n] this reading follows SQLite, which skips nothing;
    PostgreSQL refuses the query, and the request then fails with the
    engine's error. *)
Definition offset (n : Z) (q : list A) : list A := skipn (Z.to_nat n) q.

(** [query.limit(n)]: keep at most [n] rows.  As for [offset], SQL
    defines LIMIT for [n >= 0] only; for a negative [n] this reading
    follows SQLite, which then puts no bound on the rows, and PostgreSQL
    refuses the query.  The properties that say which rows a page holds
    are stated for [n >= 0]. *)
Definition limit (n : Z) (q : list A) : list A :=
  if n <? 0 then q else firstn (Z.to_nat n) q.

(** [query.order_by(col.desc())]: rows by decreasing [col].  SQL leaves
    the order of rows with equal [col] to the engine, query by query;
    this reading keeps them in storage order.  A property that compares
    the rows of two queries assumes distinct values of [col]. *)
Fixpoint insert_desc (col : A -> Z) (x : A) (q : list A) : list A :=
  match q with
  | [] => [x]
  | y :: q' =>
      if col x <? col y then y :: insert_desc col x q'
      else x :: y :: q'
  end.

Definition order_by_desc (col : A -> Z) (q : list A) : list A :=
  fold_right (insert_desc col) [] q.

(** Two consecutive rows of a result in decreasing order of [col]. *)
Definition desc (col : A -> Z) (x y : A) : Prop := col y <= col x.

End Operators.

(** [column.in_(values)] for a string-valued column. *)
Definition in_ (x : string) (values : list string) : bool :=
  existsb (String.eqb x) values.

End Query.

(* ===================================================================== *)
(** * Part II: the data model read by the handlers                        *)
(* ===================================================================== *)

(** Modelled from the spec: the ORM classes imported from [models]
  (Account, TenantAccountJoin, Dataset, DatasetPermission, App,
  InstalledApp) and the enumeration [DatasetPermissionEnum] are declared
  outside the two source files.  Each record keeps the columns the
  handlers read, as section 3 of the specification lists them. *)

(** Modelled from the spec: the permission mode of a dataset, "ALL_TEAM,
  PARTIAL_TEAM, owner-only by default". *)
Inductive DatasetPermissionEnum : Type :=
| ONLY_ME
| ALL_TEAM
| PARTIAL_TEAM.

Definition DatasetPermissionEnum_eqb (p q : DatasetPermissionEnum) : bool :=
match p, q with
| ONLY_ME, ONLY_ME => true
| ALL_TEAM, ALL_TEAM => true
| PARTIAL_TEAM, PARTIAL_TEAM => true
| _, _ => false
end.

Module Account.
(** Modelled from the spec: "Account: has a unique email, an identifier". *)
Record t : Type := Build { id : string; email : string }.
End Account.

Module TenantAccountJoin.
(** Modelled from the spec: "TenantAccountJoin: relates an account to a
    tenant", with the flag [current]. *)
Record t : Type :=
  Build { tenant_id : string; account_id : string; current : bool }.
End TenantAccountJoin.

Module Dataset.
(** Modelled from the spec: "Dataset: belongs to a tenant; has a creator,
    a permission mode"; [created_at] is the timestamp the page is
    ordered by. *)
Record t : Type :=
  Build { id : string;
          tenant_id : string;
          created_by : string;
          permission : DatasetPermissionEnum;
          created_at : Z }.
End Dataset.

Module DatasetPermission.
(** Modelled from the spec: "DatasetPermission: dataset x account x
    has_permission flag". *)
Record t : Type :=
  Build { dataset_id : string; account_id : string; has_permission : bool }.
End DatasetPermission.

Module App.
(** Modelled from the spec: "App: belongs to a tenant; has a creator, a
    public flag". *)
Record t : Type :=
  Build { id : string;
          tenant_id : string;
          created_by : string;
          is_public : bool;
          created_at : Z }.
End App.

Module InstalledApp.
(** Modelled from the spec: "InstalledApp (tenant x app)". *)
Record t : Type := Build { tenant_id : string; app_id : string }.
End InstalledApp.

(** The tables behind [db.session]. *)
Record Database : Type :=
{ accounts : list Account.t;
  tenant_account_joins : list TenantAccountJoin.t;
  datasets : list Dataset.t;
  dataset_permissions : list DatasetPermission.t;
  apps : list App.t;
  installed_apps : list InstalledApp.t }.

(** The parsed query-string arguments ([parser.parse_args()]): [email] is
  required, [page] and [limit] are integers. *)
Record Args : Type := { arg_email : string; arg_page : Z; arg_limit : Z }.



(** The dictionary both handlers return (before [marshal_with] projects
  the rows onto the response fields). *)
Record response (A : Type) : Type :=
{ data : list A; has_more : bool; total : Z; page : Z; limit : Z }.
Arguments data {A} _.
Arguments has_more {A} _.
Arguments total {A} _.
Arguments page {A} _.
Arguments limit {A} _.

(* ===================================================================== *)
(** * Part III: the two handlers                                          *)
(* ===================================================================== *)

Module EmailDatasetsApi.

(** Line 54: the account with this e-mail. *)
Definition find_account (db : Database) (email : string) : option Account.t :=
  Query.first
    (filter (fun a => Account.email a =? email)%string (accounts db)).

(** Lines 68-77: the join row flagged current, else any join row of the
    account. *)
Definition find_tenant_account (db : Database) (account : Account.t)
  : option TenantAccountJoin.t :=
  let tenant_account :=
    Query.first
      (filter (fun j =>
                 (TenantAccountJoin.account_id j =? Account.id account)%string
                 && Bool.eqb (TenantAccountJoin.current j) true)
              (tenant_account_joins db)) in
  match tenant_account with
  | Some j => Some j
  | None =>
      Query.first
        (filter (fun j =>
                   (TenantAccountJoin.account_id j =? Account.id account)%string)
                (tenant_account_joins db))
  end.

(** Lines 102-105: the sub-query of dataset ids granted to the account. *)
Definition granted_dataset_ids (db : Database) (account : Account.t)
  : list string :=
  map DatasetPermission.dataset_id
    (filter (fun p =>
               (DatasetPermission.account_id p =? Account.id account)%string
               && Bool.eqb (DatasetPermission.has_permission p) true)
            (dataset_permissions db)).

(** Lines 91-109: the datasets created by the user or shared with them. *)
Definition query (db : Database) (account : Account.t)
           (tenant_account : TenantAccountJoin.t) : list Dataset.t :=
  filter
    (fun d =>
       (Dataset.tenant_id d =? TenantAccountJoin.tenant_id tenant_account)%string
       && ((Dataset.created_by d =? Account.id account)%string
           || DatasetPermissionEnum_eqb (Dataset.permission d) ALL_TEAM
           || (DatasetPermissionEnum_eqb (Dataset.permission d) PARTIAL_TEAM
               && Query.in_ (Dataset.id d) (granted_dataset_ids db account))))
    (datasets db).

Definition get (db : Database) (args : Args) : response Dataset.t :=
  let email := arg_email args in
  let page := arg_page args in
  let limit := arg_limit args in
  let offset := (page - 1) * limit in
  match find_account db email with
  | None =>
      {| data := []; has_more := false; total := 0;
         page := page; limit := limit |}
  | Some account =>
      match find_tenant_account db account with
      | None =>
          {| data := []; has_more := false; total := 0;
             page := page; limit := limit |}
      | Some tenant_account =>
          let query := query db account tenant_account in
          let total := Query.count query in
          let datasets :=
            Query.all
              (Query.limit limit
                 (Query.offset offset
                    (Query.order_by_desc Dataset.created_at query))) in
          {| data := datasets;
             has_more := (offset + limit) <? total;
             total := total;
             page := page;
             limit := limit |}
      end
  end.

End EmailDatasetsApi.

Module EmailAppsApi.

(** Line 178. *)
Definition find_account (db : Database) (email : string) : option Account.t :=
  Query.first
    (filter (fun a => Account.email a =? email)%string (accounts db)).

(** Lines 192-201. *)
Definition find_tenant_account (db : Database) (account : Account.t)
  : option TenantAccountJoin.t :=
  let tenant_account :=
    Query.first
      (filter (fun j =>
                 (TenantAccountJoin.account_id j =? Account.id account)%string
                 && Bool.eqb (TenantAccountJoin.current j) true)
              (tenant_account_joins db)) in
  match tenant_account with
  | Some j => Some j
  | None =>
      Query.first
        (filter (fun j =>
                   (TenantAccountJoin.account_id j =? Account.id account)%string)
                (tenant_account_joins db))
  end.

(** Line 215. *)
Definition base_query (db : Database) (tenant_account : TenantAccountJoin.t)
  : list App.t :=
  filter (fun a =>
            (App.tenant_id a =? TenantAccountJoin.tenant_id tenant_account)%string)
         (apps db).

(** Lines 218-220: the installed app ids of the tenant. *)
Definition installed_app_ids (db : Database)
           (tenant_account : TenantAccountJoin.t) : list string :=
  Query.all
    (map InstalledApp.app_id
       (filter (fun i =>
                  (InstalledApp.tenant_id i
                   =? TenantAccountJoin.tenant_id tenant_account)%string)
               (installed_apps db))).

(** Lines 224-240: the filter has a third disjunct only when the tenant
    has installed apps. *)
Definition query (db : Database) (account : Account.t)
           (tenant_account : TenantAccountJoin.t) : list App.t :=
  let base_query := base_query db tenant_account in
  let installed_app_ids := installed_app_ids db tenant_account in
  match installed_app_ids with
  | _ :: _ =>
      filter (fun a =>
                (App.created_by a =? Account.id account)%string
                || Bool.eqb (App.is_public a) true
                || Query.in_ (App.id a) installed_app_ids)
             base_query
  | [] =>
      filter (fun a =>
                (App.created_by a =? Account.id account)%string
                || Bool.eqb (App.is_public a) true)
             base_query
  end.

Definition get (db : Database) (args : Args) : response App.t :=
  let email := arg_email args in
  let page := arg_page args in
  let limit := arg_limit args in
  let offset := (page - 1) * limit in
  match find_account db email with
  | None =>
      {| data := []; has_more := false; total := 0;
         page := page; limit := limit |}
  | Some account =>
      match find_tenant_account db account with
      | None =>
          {| data := []; has_more := false; total := 0;
             page := page; limit := limit |}
      | Some tenant_account =>
          let query := query db account tenant_account in
          let total := Query.count query in
          let apps :=
            Query.all
              (Query.limit limit
                 (Query.offset offset
                    (Query.order_by_desc App.created_at query))) in
          {| data := apps;
             has_more := (offset + limit) <? total;
             total := total;
             page := page;
             limit := limit |}
      end
  end.

End EmailAppsApi.

(* ===================================================================== *)
(** * Part IV: Python values and the HTTP client                          *)
(* ===================================================================== *)

(** Values a decoded JSON body is made of, with the Python operations the
    adapters apply to them.  JSON numbers with a fractional part are left
    out; object keys are strings. *)
Module Py.

Inductive value : Type :=
| PyNone
| PyBool (b : bool)
| PyInt (z : Z)
| PyStr (s : string)
| PyList (l : list value)
| PyDict (d : list (string * value)).

Definition dict : Type := list (string * value).

(** The exceptions the adapters raise or let through. *)
Inductive exn : Type :=
| ValueError (msg : string)
| KeyError (key : string)
| TypeError
| AttributeError
| JSONDecodeError
| HTTPError (status : Z).

Inductive result (A : Type) : Type :=
| Ok (a : A)
| Raise (e : exn).
Arguments Ok {A} a.
Arguments Raise {A} e.

Definition bind {A B : Type} (m : result A) (k : A -> result B) : result B :=
  match m with
  | Ok a => k a
  | Raise e => Raise e
  end.

(** [bool(v)], as [not v] and [a or b] use it. *)
Definition truthy (v : value) : bool :=
  match v with
  | PyNone => false
  | PyBool b => b
  | PyInt z => negb (z =? 0)
  | PyStr s => negb (s =? "")%string
  | PyList l => match l with [] => false | _ :: _ => true end
  | PyDict d => match d with [] => false | _ :: _ => true end
  end.

(** [v == True]: [True] equals itself and the integer 1. *)
Definition eq_True (v : value) : bool :=
  match v with
  | PyBool b => b
  | PyInt z => z =? 1
  | _ => false
  end.

(** [v == k] for a string [k]. *)
Definition eq_str (k : string) (v : value) : bool :=
  match v with
  | PyStr s => (s =? k)%string
  | _ => false
  end.

Definition isinstance_dict (v : value) : bool :=
  match v with
  | PyDict _ => true
  | _ => false
  end.

Fixpoint lookup (k : string) (d : dict) : option value :=
  match d with
  | [] => None
  | (k', v) :: d' => if (k' =? k)%string then Some v else lookup k d'
  end.

(** [d[k] = v] on a dictionary: an existing key keeps its place. *)
Fixpoint dict_set (k : string) (v : value) (d : dict) : dict :=
  match d with
  | [] => [(k, v)]
  | (k', v') :: d' =>
      if (k' =? k)%string then (k, v) :: d' else (k', v') :: dict_set k v d'
  end.

(** [o.get(k, default)]: only dictionaries have the method. *)
Definition get (o : value) (k : string) (default : value) : result value :=
  match o with
  | PyDict d =>
      match lookup k d with
      | Some v => Ok v
      | None => Ok default
      end
  | _ => Raise AttributeError
  end.

(** [o[k]] for a string [k]. *)
Definition getitem (o : value) (k : string) : result value :=
  match o with
  | PyDict d =>
      match lookup k d with
      | Some v => Ok v
      | None => Raise (KeyError k)
      end
  | _ => Raise TypeError
  end.

Fixpoint is_substring (sub s : string) : bool :=
  String.prefix sub s
  || match s with
     | EmptyString => false
     | String _ s' => is_substring sub s'
     end.

(** [k in o] for a string [k]: a key of a dictionary, an element of a
    list, a substring of a string. *)
Definition contains (k : string) (o : value) : result bool :=
  match o with
  | PyDict d => Ok (match lookup k d with Some _ => true | None => false end)
  | PyList l => Ok (existsb (eq_str k) l)
  | PyStr s => Ok (is_substring k s)
  | _ => Raise TypeError
  end.

Fixpoint characters (s : string) : list value :=
  match s with
  | EmptyString => []
  | String c s' => PyStr (String c EmptyString) :: characters s'
  end.

(** [iter(o)]: the elements of a list, the keys of a dictionary, the
    characters of a string. *)
Definition iter (o : value) : result (list value) :=
  match o with
  | PyList l => Ok l
  | PyDict d => Ok (map (fun kv => PyStr (fst kv)) d)
  | PyStr s => Ok (characters s)
  | _ => Raise TypeError
  end.

(** [{**o}]: only a mapping can be unpacked. *)
Definition unpack (o : value) : result dict :=
  match o with
  | PyDict d => Ok d
  | _ => Raise TypeError
  end.

Definition str_of_Z (z : Z) : string := NilZero.string_of_int (Z.to_int z).

Fixpoint join (sep : string) (l : list string) : string :=
  match l with
  | [] => ""
  | [s] => s
  | s :: l' => s ++ sep ++ join sep l'
  end.

Section Render.
(** [repr] of a string (quoting and escapes) is the interpreter's; it is
    a parameter of the rendering. *)
Variable repr_str : string -> string.

Fixpoint repr (v : value) : string :=
  match v with
  | PyNone => "None"
  | PyBool b => if b then "True" else "False"
  | PyInt z => str_of_Z z
  | PyStr s => repr_str s
  | PyList l => "[" ++ join ", " (map repr l) ++ "]"
  | PyDict d =>
      "{" ++ join ", " (map (fun '(k, v) => repr_str k ++ ": " ++ repr v) d)
          ++ "}"
  end.

(** [str(v)], which is also what an f-string field renders. *)
Definition str (v : value) : string :=
  match v with
  | PyStr s => s
  | _ => repr v
  end.

End Render.

End Py.

Declare Scope py_scope.
Notation "x <- m ;; k" := (Py.bind m (fun x => k))
  (at level 61, m at next level, right associativity) : py_scope.
Local Open Scope py_scope.

(** The part of [requests] the adapters use. *)
Module Requests.

Inductive Method : Type := GET | POST.

(** The keyword the body is passed with: [data=] (form-encoded) or
    [json=]. *)
Inductive Payload : Type :=
| NoPayload
| Form (data : Py.dict)
| Json (data : Py.dict).

Record Request : Type :=
  { method : Method;
    url : string;
    headers : list (string * string);
    payload : Payload }.

(** A response: its status, its text, and the decoded body when the text
    is JSON. *)
Record Response : Type :=
  { status_code : Z; text : string; body : option Py.value }.

(** [response.json()]. *)
Definition json (r : Response) : Py.result Py.value :=
  match body r with
  | Some v => Py.Ok v
  | None => Py.Raise Py.JSONDecodeError
  end.

(** [response.raise_for_status()]: client and server error statuses
    raise. *)
Definition raise_for_status (r : Response) : Py.result unit :=
  if (400 <=? status_code r) && (status_code r <? 600)
  then Py.Raise (Py.HTTPError (status_code r))
  else Py.Ok tt.

End Requests.

(** The part of [urllib.parse] the adapters use.  A string is its UTF-8
    bytes, which is what [quote_plus] works on. *)
Module Urllib.

(** The bytes [quote] never escapes: letters, digits and [_.-~]. *)
Definition always_safe (c : ascii) : bool :=
  let n := N_of_ascii c in
  ((65 <=? n) && (n <=? 90) || (97 <=? n) && (n <=? 122)
   || (48 <=? n) && (n <=? 57)
   || (n =? 95) || (n =? 46) || (n =? 45) || (n =? 126))%N.

(** One digit of the upper-case hexadecimal of [%02X]. *)
Definition hex_digit (n : N) : ascii :=
  if (n <? 10)%N then ascii_of_N (48 + n) else ascii_of_N (55 + n).

(** [quote_plus(s)] with the default [safe=""]: a safe byte is kept, a
    space becomes [+], any other byte becomes [%XX]. *)
Fixpoint quote_plus (s : string) : string :=
  match s with
  | EmptyString => EmptyString
  | String c rest =>
      if always_safe c then String c (quote_plus rest)
      else if (N_of_ascii c =? 32)%N then String "+" (quote_plus rest)
      else
        String "%"
          (String (hex_digit (N_of_ascii c / 16))
             (String (hex_digit (N_of_ascii c mod 16)) (quote_plus rest)))
  end.

(** [urlencode(params)] for string keys and values, in the order of the
    dictionary. *)
Definition urlencode (params : list (string * string)) : string :=
  Py.join "&"
    (map (fun '(k, v) => quote_plus k ++ "=" ++ quote_plus v) params).

(** Reading back one hexadecimal digit. *)
Definition hex_value (c : ascii) : N :=
  let n := N_of_ascii c in
  if (n <? 58)%N then (n - 48)%N else (n - 55)%N.

(** Reading back what [quote_plus] writes: [+] is a space and [%XX],
    with upper-case digits, is a byte.  The adapters do not call it; it
    is here to state that [quote_plus] loses nothing, and it is
    [urllib]'s [unquote_plus] on the outputs of [quote_plus] only
    (lower-case or malformed escapes are outside its domain). *)
Fixpoint unquote_plus (s : string) : string :=
  match s with
  | EmptyString => EmptyString
  | String c rest =>
      if (N_of_ascii c =? 43)%N then String " " (unquote_plus rest)
      else if (N_of_ascii c =? 37)%N then
        match rest with
        | String h (String l rest') =>
            String (ascii_of_N (16 * hex_value h + hex_value l))
                   (unquote_plus rest')
        | _ => String c rest
        end
      else String c (unquote_plus rest)
  end.

(** The bytes a query string produced by [urlencode] is made of. *)
Definition query_byte (c : ascii) : bool :=
  let n := N_of_ascii c in
  (always_safe c || (n =? 43) || (n =? 37) || (n =? 61) || (n =? 38))%N.

End Urllib.

(* ===================================================================== *)
(** * Part V: the OAuth adapters                                          *)
(* ===================================================================== *)

Module OAuthUserInfo.
(** The dataclass; its annotations are not enforced, so a field holds
    whatever value the adapter puts there. *)
Record t : Type := Build { id : Py.value; name : Py.value; email : Py.value }.
End OAuthUserInfo.

Module OAuth.

(** The configuration an adapter instance holds. *)
Record t : Type :=
  { client_id : string; client_secret : string; redirect_uri : string }.

(** The base-class method: the subclass's [get_raw_user_info], then its
    [_transform_user_info]. *)
Definition get_user_info
           (get_raw_user_info : Py.value -> Py.result Py.value)
           (_transform_user_info : Py.value -> Py.result OAuthUserInfo.t)
           (token : Py.value) : Py.result OAuthUserInfo.t :=
  raw_info <- get_raw_user_info token ;;
  _transform_user_info raw_info.

End OAuth.

Module GitHubOAuth.

Definition _TOKEN_URL : string := "https://github.com/login/oauth/access_token".
Definition _USER_INFO_URL : string := "https://api.github.com/user".
Definition _EMAIL_INFO_URL : string := "https://api.github.com/user/emails".

Section Methods.
Variable repr_str : string -> string.
Variable net : Requests.Request -> Requests.Response.
Variable self : OAuth.t.

Definition token_request (code : Py.value) : Requests.Request :=
  let data :=
    [("client_id", Py.PyStr (OAuth.client_id self));
     ("client_secret", Py.PyStr (OAuth.client_secret self));
     ("code", code);
     ("redirect_uri", Py.PyStr (OAuth.redirect_uri self))] in
  let headers := [("Accept", "application/json")] in
  {| Requests.method := Requests.POST;
     Requests.url := _TOKEN_URL;
     Requests.headers := headers;
     Requests.payload := Requests.Form data |}.

Definition get_access_token (code : Py.value) : Py.result Py.value :=
  let response := net (token_request code) in
  response_json <- Requests.json response ;;
  access_token <- Py.get response_json "access_token" Py.PyNone ;;
  if negb (Py.truthy access_token)
  then Py.Raise (Py.ValueError ("Error in GitHub OAuth: "
                                  ++ Py.str repr_str response_json))
  else Py.Ok access_token.

Definition user_request (url : string) (token : Py.value) : Requests.Request :=
  let headers := [("Authorization", "token " ++ Py.str repr_str token)] in
  {| Requests.method := Requests.GET;
     Requests.url := url;
     Requests.headers := headers;
     Requests.payload := Requests.NoPayload |}.

(** [next((email for email in email_info if email["primary"] == True), {})]:
    the records are tested in order and the search stops at the first
    one flagged primary. *)
Fixpoint next_primary (email_info : list Py.value) : Py.result Py.value :=
  match email_info with
  | [] => Py.Ok (Py.PyDict [])
  | email :: rest =>
      primary <- Py.getitem email "primary" ;;
      if Py.eq_True primary then Py.Ok email else next_primary rest
  end.

Definition get_raw_user_info (token : Py.value) : Py.result Py.value :=
  let response := net (user_request _USER_INFO_URL token) in
  _ <- Requests.raise_for_status response ;;
  user_info <- Requests.json response ;;
  let email_response := net (user_request _EMAIL_INFO_URL token) in
  email_info <- Requests.json email_response ;;
  records <- Py.iter email_info ;;
  primary_email <- next_primary records ;;
  merged <- Py.unpack user_info ;;
  email <- Py.get primary_email "email" (Py.PyStr "") ;;
  Py.Ok (Py.PyDict (Py.dict_set "email" email merged)).

Definition _transform_user_info (raw_info : Py.value)
  : Py.result OAuthUserInfo.t :=
  email <- Py.get raw_info "email" Py.PyNone ;;
  email <-
    (if negb (Py.truthy email)
     then
       id <- Py.getitem raw_info "id" ;;
       login <- Py.getitem raw_info "login" ;;
       Py.Ok (Py.PyStr (Py.str repr_str id ++ "+" ++ Py.str repr_str login
                          ++ "@users.noreply.github.com"))
     else Py.Ok email) ;;
  id <- Py.getitem raw_info "id" ;;
  name <- Py.getitem raw_info "name" ;;
  Py.Ok {| OAuthUserInfo.id := Py.PyStr (Py.str repr_str id);
           OAuthUserInfo.name := name;
           OAuthUserInfo.email := email |}.

Definition get_user_info (token : Py.value) : Py.result OAuthUserInfo.t :=
  OAuth.get_user_info get_raw_user_info _transform_user_info token.

Definition _AUTH_URL : string := "https://github.com/login/oauth/authorize".

(** Lines 44-52; [invite_token] is [None] or a string, and an empty one
    fails the test [if invite_token]. *)
Definition get_authorization_url (invite_token : option string) : string :=
  let params :=
    [("client_id", OAuth.client_id self);
     ("redirect_uri", OAuth.redirect_uri self);
     ("scope", "user:email")] in
  let params :=
    match invite_token with
    | Some t => if negb (t =? "")%string
                then (params ++ [("state", t)])%list else params
    | None => params
    end in
  _AUTH_URL ++ "?" ++ Urllib.urlencode params.

End Methods.
End GitHubOAuth.

Module GoogleOAuth.

Definition _TOKEN_URL : string := "https://oauth2.googleapis.com/token".
Definition _USER_INFO_URL : string :=
  "https://www.googleapis.com/oauth2/v3/userinfo".

Section Methods.
Variable repr_str : string -> string.
Variable net : Requests.Request -> Requests.Response.
Variable self : OAuth.t.

Definition token_request (code : Py.value) : Requests.Request :=
  let data :=
    [("client_id", Py.PyStr (OAuth.client_id self));
     ("client_secret", Py.PyStr (OAuth.client_secret self));
     ("code", code);
     ("grant_type", Py.PyStr "authorization_code");
     ("redirect_uri", Py.PyStr (OAuth.redirect_uri self))] in
  let headers := [("Accept", "application/json")] in
  {| Requests.method := Requests.POST;
     Requests.url := _TOKEN_URL;
     Requests.headers := headers;
     Requests.payload := Requests.Form data |}.

Definition get_access_token (code : Py.value) : Py.result Py.value :=
  let response := net (token_request code) in
  response_json <- Requests.json response ;;
  access_token <- Py.get response_json "access_token" Py.PyNone ;;
  if negb (Py.truthy access_token)
  then Py.Raise (Py.ValueError ("Error in Google OAuth: "
                                  ++ Py.str repr_str response_json))
  else Py.Ok access_token.

Definition user_request (token : Py.value) : Requests.Request :=
  let headers := [("Authorization", "Bearer " ++ Py.str repr_str token)] in
  {| Requests.method := Requests.GET;
     Requests.url := _USER_INFO_URL;
     Requests.headers := headers;
     Requests.payload := Requests.NoPayload |}.

Definition get_raw_user_info (token : Py.value) : Py.result Py.value :=
  let response := net (user_request token) in
  _ <- Requests.raise_for_status response ;;
  Requests.json response.

Definition _transform_user_info (raw_info : Py.value)
  : Py.result OAuthUserInfo.t :=
  sub <- Py.getitem raw_info "sub" ;;
  email <- Py.getitem raw_info "email" ;;
  Py.Ok {| OAuthUserInfo.id := Py.PyStr (Py.str repr_str sub);
           OAuthUserInfo.name := Py.PyStr "";
           OAuthUserInfo.email := email |}.

Definition get_user_info (token : Py.value) : Py.result OAuthUserInfo.t :=
  OAuth.get_user_info get_raw_user_info _transform_user_info token.

Definition _AUTH_URL : string := "https://accounts.google.com/o/oauth2/v2/auth".

(** Lines 96-105. *)
Definition get_authorization_url (invite_token : option string) : string :=
  let params :=
    [("client_id", OAuth.client_id self);
     ("response_type", "code");
     ("redirect_uri", OAuth.redirect_uri self);
     ("scope", "openid email")] in
  let params :=
    match invite_token with
    | Some t => if negb (t =? "")%string
                then (params ++ [("state", t)])%list else params
    | None => params
    end in
  _AUTH_URL ++ "?" ++ Urllib.urlencode params.

End Methods.
End GoogleOAuth.

Module AILabOAuth.

Definition _TOKEN_URL : string :=
  "https://industry-jystudy2.app.codewave.163.com/rest/token".
Definition _USER_INFO_URL : string :=
  "https://industry-jystudy2.app.codewave.163.com/rest/userinfo".

Section Methods.
Variable repr_str : string -> string.
Variable net : Requests.Request -> Requests.Response.
Variable self : OAuth.t.

Definition token_request (code : Py.value) : Requests.Request :=
  let code_value :=
    match code with
    | Py.PyList (first :: _) => first
    | _ => code
    end in
  let data :=
    [("grant_type", Py.PyStr "authorization_code");
     ("client_id", Py.PyStr (OAuth.client_id self));
     ("client_secret", Py.PyStr (OAuth.client_secret self));
     ("code", code_value);
     ("redirect_uri", Py.PyStr (OAuth.redirect_uri self))] in
  let headers :=
    [("Accept", "application/json"); ("Content-Type", "application/json")] in
  {| Requests.method := Requests.POST;
     Requests.url := _TOKEN_URL;
     Requests.headers := headers;
     Requests.payload := Requests.Json data |}.

(** Lines 190-195: the token of the wrapped shape when [data] is a
    dictionary, of the flat shape otherwise. *)
Definition extract_access_token (response_json : Py.value)
  : Py.result Py.value :=
  has_data <- Py.contains "data" response_json ;;
  wrapped <-
    (if has_data
     then
       inner <- Py.getitem response_json "data" ;;
       Py.Ok (Py.isinstance_dict inner)
     else Py.Ok false) ;;
  if wrapped
  then
    inner <- Py.getitem response_json "data" ;;
    Py.get inner "access_token" Py.PyNone
  else Py.get response_json "access_token" Py.PyNone.

Definition get_access_token (code : Py.value) : Py.result Py.value :=
  let response := net (token_request code) in
  response_json <- Requests.json response ;;
  access_token <- extract_access_token response_json ;;
  if negb (Py.truthy access_token)
  then Py.Raise (Py.ValueError ("Error in AI实验平台 OAuth: "
                                  ++ Py.str repr_str response_json))
  else Py.Ok access_token.

Definition user_request (token : Py.value) : Requests.Request :=
  let headers :=
    [("Authorization", "Bearer " ++ Py.str repr_str token);
     ("Content-Type", "application/json")] in
  {| Requests.method := Requests.GET;
     Requests.url := _USER_INFO_URL;
     Requests.headers := headers;
     Requests.payload := Requests.NoPayload |}.

Definition get_raw_user_info (token : Py.value) : Py.result Py.value :=
  let response := net (user_request token) in
  if negb (Requests.status_code response =? 200)
  then Py.Raise (Py.ValueError ("Error getting user info: "
                                  ++ Requests.text response))
  else
    response_json <- Requests.json response ;;
    has_data <- Py.contains "data" response_json ;;
    wrapped <-
      (if has_data
       then
         inner <- Py.getitem response_json "data" ;;
         Py.Ok (Py.isinstance_dict inner)
       else Py.Ok false) ;;
    if wrapped
    then Py.getitem response_json "data"
    else Py.Ok response_json.

Definition _transform_user_info (raw_info : Py.value)
  : Py.result OAuthUserInfo.t :=
  user_id_raw <- Py.get raw_info "userId" (Py.PyStr "") ;;
  let user_id := Py.PyStr (Py.str repr_str user_id_raw) in
  user_name <- Py.get raw_info "username" (Py.PyStr "") ;;
  display_name <- Py.get raw_info "displayName" (Py.PyStr "") ;;
  let name := if Py.truthy display_name then display_name else user_name in
  email <- Py.get raw_info "email" (Py.PyStr "") ;;
  let email :=
    if negb (Py.truthy email)
    then Py.PyStr (Py.str repr_str user_name ++ "@example.com")
    else email in
  Py.Ok {| OAuthUserInfo.id := user_id;
           OAuthUserInfo.name := name;
           OAuthUserInfo.email := email |}.

Definition get_user_info (token : Py.value) : Py.result OAuthUserInfo.t :=
  OAuth.get_user_info get_raw_user_info _transform_user_info token.

Definition _AUTH_URL : string :=
  "https://industry-jystudy2.app.codewave.163.com/oauth/authorize".

(** Lines 146-157. *)
Definition get_authorization_url (invite_token : option string) : string :=
  let params :=
    [("response_type", "code");
     ("redirect_uri", OAuth.redirect_uri self);
     ("client_id", OAuth.client_id self)] in
  let params :=
    match invite_token with
    | Some t => if negb (t =? "")%string
                then (params ++ [("state", t)])%list else params
    | None => params
    end in
  _AUTH_URL ++ "?" ++ Urllib.urlencode params.

End Methods.
End AILabOAuth.

(** The three concrete adapters; a call on an [OAuth] reference runs the
    method of the instance's class. *)
Module Provider.

Inductive t : Type := GitHub | Google | AILab.

Section Dispatch.
Variable repr_str : string -> string.
Variable net : Requests.Request -> Requests.Response.
Variable self : OAuth.t.

Definition token_request (p : t) (code : Py.value) : Requests.Request :=
  match p with
  | GitHub => GitHubOAuth.token_request self code
  | Google => GoogleOAuth.token_request self code
  | AILab => AILabOAuth.token_request self code
  end.

Definition get_access_token (p : t) (code : Py.value) : Py.result Py.value :=
  match p with
  | GitHub => GitHubOAuth.get_access_token repr_str net self code
  | Google => GoogleOAuth.get_access_token repr_str net self code
  | AILab => AILabOAuth.get_access_token repr_str net self code
  end.

Definition get_raw_user_info (p : t) (token : Py.value) : Py.result Py.value :=
  match p with
  | GitHub => GitHubOAuth.get_raw_user_info repr_str net token
  | Google => GoogleOAuth.get_raw_user_info repr_str net token
  | AILab => AILabOAuth.get_raw_user_info repr_str net token
  end.

(** The profile requests a provider sends for a token. *)
Definition profile_requests (p : t) (token : Py.value)
  : list Requests.Request :=
  match p with
  | GitHub =>
      [GitHubOAuth.user_request repr_str GitHubOAuth._USER_INFO_URL token;
       GitHubOAuth.user_request repr_str GitHubOAuth._EMAIL_INFO_URL token]
  | Google => [GoogleOAuth.user_request repr_str token]
  | AILab => [AILabOAuth.user_request repr_str token]
  end.

Definition get_user_info (p : t) (token : Py.value)
  : Py.result OAuthUserInfo.t :=
  match p with
  | GitHub => GitHubOAuth.get_user_info repr_str net token
  | Google => GoogleOAuth.get_user_info repr_str net token
  | AILab => AILabOAuth.get_user_info repr_str net token
  end.

Definition get_authorization_url (p : t) (invite_token : option string)
  : string :=
  match p with
  | GitHub => GitHubOAuth.get_authorization_url self invite_token
  | Google => GoogleOAuth.get_authorization_url self invite_token
  | AILab => AILabOAuth.get_authorization_url self invite_token
  end.

End Dispatch.

(** Where the specification locates the access token in a token response
    that is a JSON object: under [access_token], and for the AI Lab
    provider under [data.access_token] when [data] is an object ("check
    for the wrapped shape first, falling back to flat"). *)
Definition spec_token_field (p : t) (response_json : Py.dict)
  : option Py.value :=
  match p with
  | GitHub | Google => Py.lookup "access_token" response_json
  | AILab =>
      match Py.lookup "data" response_json with
      | Some (Py.PyDict inner) => Py.lookup "access_token" inner
      | _ => Py.lookup "access_token" response_json
      end
  end.

End Provider.

(** An e-mail record of [/user/emails] that can be tested and is not
    flagged primary. *)
Definition not_primary (record : Py.value) : Prop :=
  exists v, Py.getitem record "primary" = Py.Ok v /\ Py.eq_True v = false.

(** The two dictionaries a handler returns, as functions of the result
    the page is cut from: the literal of lines 59-65 and 82-88, and the
    one of lines 118-124. *)
Definition empty_page {A : Type} (pg lim : Z) : response A :=
  {| data := []; has_more := false; total := 0; page := pg; limit := lim |}.

Definition listing {A : Type} (col : A -> Z) (q : list A) (pg lim : Z)
  : response A :=
  let offset := (pg - 1) * lim in
  {| data := Query.all
               (Query.limit lim
                  (Query.offset offset (Query.order_by_desc col q)));
     has_more := (offset + lim) <? Query.count q;
     total := Query.count q;
     page := pg;
     limit := lim |}.

(** The pages numbered 1 to [n] of a request, one after the other. *)
Definition pages {A : Type} (get : Args -> response A) (email : string)
           (lim : Z) (n : nat) : list A :=
  List.concat (map (fun k => data (get {| arg_email := email;
                                     arg_page := Z.of_nat k;
                                     arg_limit := lim |}))
              (seq 1 n)).

(* ===================================================================== *)
(** * Part VI: sample data                                                *)
(* ===================================================================== *)

Module Sample.

Definition alice : Account.t := Account.Build "acc-alice" "alice@example.com".
Definition bob : Account.t := Account.Build "acc-bob" "bob@example.com".
Definition carol : Account.t := Account.Build "acc-carol" "carol@example.com".

(** Alice's non-current membership is stored before her current one. *)
Definition joins : list TenantAccountJoin.t :=
  [TenantAccountJoin.Build "tenant-old" "acc-alice" false;
   TenantAccountJoin.Build "tenant-main" "acc-alice" true;
   TenantAccountJoin.Build "tenant-main" "acc-bob" false].

Definition ds_own : Dataset.t :=
  Dataset.Build "ds-own" "tenant-main" "acc-alice" ONLY_ME 10.
Definition ds_team : Dataset.t :=
  Dataset.Build "ds-team" "tenant-main" "acc-bob" ALL_TEAM 30.
Definition ds_granted : Dataset.t :=
  Dataset.Build "ds-granted" "tenant-main" "acc-bob" PARTIAL_TEAM 20.
Definition ds_denied : Dataset.t :=
  Dataset.Build "ds-denied" "tenant-main" "acc-bob" PARTIAL_TEAM 40.
Definition ds_private : Dataset.t :=
  Dataset.Build "ds-private" "tenant-main" "acc-bob" ONLY_ME 50.
Definition ds_elsewhere : Dataset.t :=
  Dataset.Build "ds-elsewhere" "tenant-old" "acc-alice" ALL_TEAM 60.

Definition app_own : App.t :=
  App.Build "app-own" "tenant-main" "acc-alice" false 5.
Definition app_public : App.t :=
  App.Build "app-public" "tenant-main" "acc-bob" true 7.
Definition app_installed : App.t :=
  App.Build "app-installed" "tenant-main" "acc-bob" false 9.
Definition app_hidden : App.t :=
  App.Build "app-hidden" "tenant-main" "acc-bob" false 11.

Definition db : Database :=
  {| accounts := [alice; bob; carol];
     tenant_account_joins := joins;
     datasets := [ds_own; ds_team; ds_granted; ds_denied; ds_private;
                  ds_elsewhere];
     dataset_permissions :=
       [DatasetPermission.Build "ds-granted" "acc-alice" true;
        DatasetPermission.Build "ds-denied" "acc-alice" false;
        DatasetPermission.Build "ds-private" "acc-bob" true];
     apps := [app_own; app_public; app_installed; app_hidden];
     installed_apps := [InstalledApp.Build "tenant-main" "app-installed"] |}.

Definition alice_args (page limit : Z) : Args :=
  {| arg_email := "alice@example.com"; arg_page := page; arg_limit := limit |}.

(** A tenant in which Alice sees 45 datasets and 45 apps. *)
Definition many_datasets : list Dataset.t :=
  map (fun n => Dataset.Build "ds" "tenant-main" "acc-alice" ONLY_ME
                              (Z.of_nat n))
      (seq 0 45).

Definition many_apps : list App.t :=
  map (fun n => App.Build "app" "tenant-main" "acc-alice" false (Z.of_nat n))
      (seq 0 45).

Definition big_db : Database :=
  {| accounts := [alice; bob; carol];
     tenant_account_joins := joins;
     datasets := many_datasets;
     dataset_permissions := [];
     apps := many_apps;
     installed_apps := [] |}.

(** A rendering of quoted strings for the sample runs. *)
Definition repr_str (s : string) : string := "'" ++ s ++ "'".

Definition self : OAuth.t :=
  {| OAuth.client_id := "client";
     OAuth.client_secret := "secret";
     OAuth.redirect_uri := "https://app.example.com/callback" |}.

Definition json_response (status : Z) (v : Py.value) : Requests.Response :=
  {| Requests.status_code := status;
     Requests.text := "";
     Requests.body := Some v |}.

(** A server that answers every request with [r]. *)
Definition always (r : Requests.Response)
  : Requests.Request -> Requests.Response :=
  fun _ => r.

Definition octocat : Py.dict :=
  [("login", Py.PyStr "octocat"); ("id", Py.PyInt 583231);
   ("name", Py.PyStr "The Octocat")].

(** GitHub answering [/user] with a profile and [/user/emails] with
    [emails]. *)
Definition github (emails : Requests.Response)
  : Requests.Request -> Requests.Response :=
  fun req =>
    if (Requests.url req =? GitHubOAuth._EMAIL_INFO_URL)%string
    then emails
    else json_response 200 (Py.PyDict octocat).

(** [/user/emails] failing with a server error and an empty JSON list as
    body. *)
Definition emails_failure : Requests.Response :=
  {| Requests.status_code := 500;
     Requests.text := "[]";
     Requests.body := Some (Py.PyList []) |}.

Definition emails_secondary_only : Py.value :=
  Py.PyList
    [Py.PyDict [("email", Py.PyStr "octo@example.com");
                ("primary", Py.PyBool false);
                ("verified", Py.PyBool true)]].

Definition emails_with_primary : Py.value :=
  Py.PyList
    [Py.PyDict [("email", Py.PyStr "octo@example.com");
                ("primary", Py.PyBool false)];
     Py.PyDict [("email", Py.PyStr "cat@github.com");
                ("primary", Py.PyBool true)]].

Definition wrapped_token (t : Py.value) : Py.value :=
  Py.PyDict [("code", Py.PyInt 200); ("msg", Py.PyStr "ok");
             ("data", Py.PyDict [("access_token", t)])].

Definition flat_token (t : Py.value) : Py.value :=
  Py.PyDict [("access_token", t)].

End Sample.

(* ===================================================================== *)
(** * Part VII: properties of the query layer                             *)
(* ===================================================================== *)

Section QueryFacts.
Context {A : Type}.
Variable col : A -> Z.

Local Abbreviation desc := (Query.desc col).

Lemma In_firstn_sub (n : nat) (q : list A) (x : A) :
  In x (firstn n q) -> In x q.
Proof.
  revert q; induction n as [|n IH]; intros [|y q]; simpl; try tauto.
  intros [H|H]; [left; exact H | right; apply IH, H].
Qed.

Lemma In_skipn_sub (n : nat) (q : list A) (x : A) :
  In x (skipn n q) -> In x q.
Proof.
  revert q; induction n as [|n IH]; intros [|y q]; simpl; try tauto.
  intros H. right. apply IH, H.
Qed.

Lemma insert_desc_perm (x : A) (q : list A) :
  Permutation (Query.insert_desc col x q) (x :: q).
Proof.
  induction q as [|y q IH]; simpl.
  - apply Permutation_refl.
  - destruct (col x <? col y).
    + apply perm_trans with (y :: x :: q).
      * apply perm_skip, IH.
      * apply perm_swap.
    + apply Permutation_refl.
Qed.

Lemma order_by_desc_perm (q : list A) :
  Permutation (Query.order_by_desc col q) q.
Proof.
  induction q as [|x q IH]; simpl.
  - constructor.
  - eapply perm_trans; [apply insert_desc_perm|].
    apply perm_skip, IH.
Qed.

Lemma order_by_desc_length (q : list A) :
  List.length (Query.order_by_desc col q) = List.length q.
Proof. apply Permutation_length, order_by_desc_perm. Qed.

Lemma order_by_desc_In (x : A) (q : list A) :
  In x (Query.order_by_desc col q) <-> In x q.
Proof.
  split; apply Permutation_in.
  - apply order_by_desc_perm.
  - apply Permutation_sym, order_by_desc_perm.
Qed.

Lemma insert_desc_HdRel (y x : A) (q : list A) :
  desc y x -> HdRel desc y q -> HdRel desc y (Query.insert_desc col x q).
Proof.
  intros Hyx Hq.
  destruct q as [|z q]; simpl.
  - constructor; exact Hyx.
  - destruct (col x <? col z).
    + constructor. inversion Hq; assumption.
    + constructor; exact Hyx.
Qed.

Lemma insert_desc_sorted (x : A) (q : list A) :
  Sorted desc q -> Sorted desc (Query.insert_desc col x q).
Proof.
  induction q as [|y q IH]; intros Hs; simpl.
  - repeat constructor.
  - inversion Hs as [|? ? Hq Hhd]; subst.
    destruct (col x <? col y) eqn:E.
    + constructor.
      * apply IH, Hq.
      * apply insert_desc_HdRel; [|exact Hhd].
        apply Z.ltb_lt in E. unfold Query.desc. lia.
    + constructor; [exact Hs|].
      constructor. apply Z.ltb_ge in E. exact E.
Qed.

Lemma order_by_desc_sorted (q : list A) :
  Sorted desc (Query.order_by_desc col q).
Proof.
  induction q as [|x q IH]; simpl.
  - constructor.
  - apply insert_desc_sorted, IH.
Qed.

Lemma Sorted_skipn (n : nat) (q : list A) :
  Sorted desc q -> Sorted desc (skipn n q).
Proof.
  revert q; induction n as [|n IH]; intros q Hs; simpl.
  - exact Hs.
  - destruct q as [|x q]; [constructor|].
    apply IH. inversion Hs; assumption.
Qed.

Lemma Sorted_firstn (n : nat) (q : list A) :
  Sorted desc q -> Sorted desc (firstn n q).
Proof.
  revert q; induction n as [|n IH]; intros q Hs; simpl.
  - constructor.
  - destruct q as [|x q]; [constructor|].
    inversion Hs as [|? ? Hq Hhd]; subst.
    constructor.
    + apply IH, Hq.
    + destruct q as [|y q]; destruct n; simpl; constructor.
      inversion Hhd; assumption.
Qed.

Lemma limit_nonneg (lim : Z) (q : list A) :
  0 <= lim -> Query.limit lim q = firstn (Z.to_nat lim) q.
Proof.
  intros H. unfold Query.limit.
  destruct (lim <? 0) eqn:E; [apply Z.ltb_lt in E; lia | reflexivity].
Qed.

Lemma limit_In (lim : Z) (q : list A) (x : A) :
  In x (Query.limit lim q) -> In x q.
Proof.
  unfold Query.limit. destruct (lim <? 0); [tauto | apply In_firstn_sub].
Qed.

Lemma limit_Sorted (lim : Z) (q : list A) :
  Sorted desc q -> Sorted desc (Query.limit lim q).
Proof.
  unfold Query.limit. destruct (lim <? 0); [tauto | apply Sorted_firstn].
Qed.

(** The page is a run of consecutive rows of the ordered result. *)
Lemma page_sorted (off lim : Z) (q : list A) :
  Sorted desc (Query.limit lim (Query.offset off (Query.order_by_desc col q))).
Proof.
  apply limit_Sorted. unfold Query.offset.
  apply Sorted_skipn, order_by_desc_sorted.
Qed.

Lemma page_In (off lim : Z) (q : list A) (x : A) :
  In x (Query.limit lim (Query.offset off (Query.order_by_desc col q))) ->
  In x q.
Proof.
  intros H. apply limit_In in H. unfold Query.offset in H.
  apply order_by_desc_In.
  eapply In_skipn_sub, H.
Qed.

Lemma page_length (off lim : Z) (q : list A) :
  0 <= off -> 0 <= lim ->
  Z.of_nat (List.length
              (Query.limit lim (Query.offset off (Query.order_by_desc col q))))
  = Z.min lim (Z.max 0 (Query.count q - off)).
Proof.
  intros Hoff Hlim. rewrite limit_nonneg by exact Hlim.
  unfold Query.offset, Query.count.
  rewrite length_firstn, length_skipn, order_by_desc_length. lia.
Qed.

(** The first page holds every row when the limit covers the total. *)
Lemma page_all (lim : Z) (q : list A) :
  Query.count q <= lim ->
  Query.limit lim (Query.offset 0 (Query.order_by_desc col q))
  = Query.order_by_desc col q.
Proof.
  intros H. unfold Query.count in H. rewrite limit_nonneg by lia.
  unfold Query.offset. simpl.
  apply firstn_all2. rewrite order_by_desc_length. lia.
Qed.

End QueryFacts.

Lemma in__In (x : string) (values : list string) :
  Query.in_ x values = true <-> In x values.
Proof.
  unfold Query.in_. rewrite existsb_exists. split.
  - intros [y [Hy He]]. apply String.eqb_eq in He. subst. exact Hy.
  - intros H. exists x. split; [exact H | apply String.eqb_refl].
Qed.

Lemma DatasetPermissionEnum_eqb_eq (p q : DatasetPermissionEnum) :
  DatasetPermissionEnum_eqb p q = true <-> p = q.
Proof. destruct p, q; simpl; split; congruence. Qed.

Lemma eqb_true_iff_true (b : bool) : Bool.eqb b true = true <-> b = true.
Proof. destruct b; simpl; split; congruence. Qed.

Lemma first_filter_None {A : Type} (f : A -> bool) (l : list A) :
  Query.first (filter f l) = None <-> (forall x, In x l -> f x = false).
Proof.
  induction l as [|y l IH]; simpl.
  - split; [intros _ x [] | reflexivity].
  - destruct (f y) eqn:E; simpl.
    + split; [discriminate|]. intros H. rewrite (H y) in E; auto. discriminate.
    + rewrite IH. split.
      * intros H x [Hx|Hx]; [subst; exact E | apply H, Hx].
      * intros H x Hx. apply H. right. exact Hx.
Qed.

Lemma first_filter_Some {A : Type} (f : A -> bool) (l : list A) (x : A) :
  Query.first (filter f l) = Some x -> In x l /\ f x = true.
Proof.
  intros H. apply filter_In.
  destruct (filter f l) as [|y l'] eqn:E; simpl in H; [discriminate|].
  injection H as ->. left. reflexivity.
Qed.

(* ===================================================================== *)
(** * Part VIII: properties of the handlers                               *)
(* ===================================================================== *)

Lemma granted_dataset_ids_In (db : Database) (account : Account.t) (i : string) :
  In i (EmailDatasetsApi.granted_dataset_ids db account) <->
  exists p, In p (dataset_permissions db)
            /\ DatasetPermission.dataset_id p = i
            /\ DatasetPermission.account_id p = Account.id account
            /\ DatasetPermission.has_permission p = true.
Proof.
  unfold EmailDatasetsApi.granted_dataset_ids. rewrite in_map_iff. split.
  - intros [p [Hi Hp]]. apply filter_In in Hp. destruct Hp as [Hin Hc].
    apply andb_true_iff in Hc. destruct Hc as [Ha Hb].
    apply String.eqb_eq in Ha. apply Bool.eqb_prop in Hb.
    exists p. repeat split; assumption.
  - intros [p [Hin [Hi [Ha Hb]]]]. exists p. split; [exact Hi|].
    apply filter_In. split; [exact Hin|].
    rewrite Ha, Hb, String.eqb_refl. reflexivity.
Qed.

(** The rule the dataset listing applies to one row. *)
Lemma dataset_query_In (db : Database) (account : Account.t)
      (tenant_account : TenantAccountJoin.t) (d : Dataset.t) :
  In d (EmailDatasetsApi.query db account tenant_account) <->
  In d (datasets db)
  /\ Dataset.tenant_id d = TenantAccountJoin.tenant_id tenant_account
  /\ (Dataset.created_by d = Account.id account
      \/ Dataset.permission d = ALL_TEAM
      \/ (Dataset.permission d = PARTIAL_TEAM
          /\ exists p, In p (dataset_permissions db)
                       /\ DatasetPermission.dataset_id p = Dataset.id d
                       /\ DatasetPermission.account_id p = Account.id account
                       /\ DatasetPermission.has_permission p = true)).
Proof.
  unfold EmailDatasetsApi.query. rewrite filter_In.
  rewrite andb_true_iff, !orb_true_iff, andb_true_iff.
  rewrite !String.eqb_eq, !DatasetPermissionEnum_eqb_eq, in__In.
  rewrite granted_dataset_ids_In. tauto.
Qed.

(** C1. In [EmailDatasetsApi.get], once the account and its tenant are
    resolved, a dataset row belongs to the query result exactly when it is
    in the tenant and is created by the account, or shared with the whole
    team, or shared with members while some grant row for the dataset and
    the account has [has_permission = true].  [total] counts that result,
    the returned page is drawn from it, and the first page holds all of it
    when the limit covers the total.  A member-shared dataset of another
    creator whose grant rows for the account all have
    [has_permission = false] is neither in the result nor on the page. *)
Theorem dataset_visibility (db : Database) (args : Args)
        (account : Account.t) (tenant_account : TenantAccountJoin.t) :
  EmailDatasetsApi.find_account db (arg_email args) = Some account ->
  EmailDatasetsApi.find_tenant_account db account = Some tenant_account ->
  let r := EmailDatasetsApi.get db args in
  let q := EmailDatasetsApi.query db account tenant_account in
  (forall d,
      In d q <->
      In d (datasets db)
      /\ Dataset.tenant_id d = TenantAccountJoin.tenant_id tenant_account
      /\ (Dataset.created_by d = Account.id account
          \/ Dataset.permission d = ALL_TEAM
          \/ (Dataset.permission d = PARTIAL_TEAM
              /\ exists p, In p (dataset_permissions db)
                           /\ DatasetPermission.dataset_id p = Dataset.id d
                           /\ DatasetPermission.account_id p = Account.id account
                           /\ DatasetPermission.has_permission p = true)))
  /\ total r = Z.of_nat (List.length q)
  /\ (forall d, In d (data r) -> In d q)
  /\ (arg_page args = 1 -> total r <= arg_limit args ->
      forall d, In d q -> In d (data r))
  /\ (forall d,
         Dataset.permission d = PARTIAL_TEAM ->
         Dataset.created_by d <> Account.id account ->
         (forall p, In p (dataset_permissions db) ->
                    DatasetPermission.dataset_id p = Dataset.id d ->
                    DatasetPermission.account_id p = Account.id account ->
                    DatasetPermission.has_permission p = false) ->
         ~ In d q /\ ~ In d (data r)).
Proof.
  intros Ha Ht r q.
  assert (Hdata : forall d, In d (data r) -> In d q).
  { intros d. subst r q. unfold EmailDatasetsApi.get. rewrite Ha, Ht. simpl.
    unfold Query.all. apply page_In. }
  assert (Hexcl : forall d,
             Dataset.permission d = PARTIAL_TEAM ->
             Dataset.created_by d <> Account.id account ->
             (forall p, In p (dataset_permissions db) ->
                        DatasetPermission.dataset_id p = Dataset.id d ->
                        DatasetPermission.account_id p = Account.id account ->
                        DatasetPermission.has_permission p = false) ->
             ~ In d q).
  { intros d Hp Hc Hg Hin. apply dataset_query_In in Hin.
    destruct Hin as [_ [_ [H|[H|[_ [p [Hin [Hd [Hacc Hhas]]]]]]]]].
    - contradiction.
    - congruence.
    - rewrite (Hg p Hin Hd Hacc) in Hhas. discriminate. }
  split; [intros d; apply dataset_query_In|].
  split.
  { subst r q. unfold EmailDatasetsApi.get. rewrite Ha, Ht. reflexivity. }
  split; [exact Hdata|].
  split.
  - intros Hpage Hlim d Hin. subst r q.
    unfold EmailDatasetsApi.get in *. rewrite Ha, Ht in *. simpl in *.
    rewrite Hpage. simpl. unfold Query.all.
    rewrite page_all by exact Hlim.
    apply order_by_desc_In. exact Hin.
  - intros d Hp Hc Hg. split.
    + apply Hexcl; assumption.
    + intros Hin. apply (Hexcl d Hp Hc Hg). apply Hdata, Hin.
Qed.

(** The rule holds on the sample tenant: the granted dataset is listed for
    Alice, the denied one is not. *)
Lemma dataset_visibility_witness :
  In Sample.ds_granted (data (EmailDatasetsApi.get Sample.db (Sample.alice_args 1 20)))
  /\ ~ In Sample.ds_denied
       (data (EmailDatasetsApi.get Sample.db (Sample.alice_args 1 20))).
Proof.
  pose proof (dataset_visibility Sample.db (Sample.alice_args 1 20)
                Sample.alice
                (TenantAccountJoin.Build "tenant-main" "acc-alice" true)
                eq_refl eq_refl) as H.
  cbv zeta in H. destruct H as [Hiff [_ [_ [Hall Hexcl]]]].
  split.
  - apply Hall; [reflexivity | vm_compute; discriminate |].
    apply Hiff. vm_compute. intuition eauto 10.
  - apply Hexcl.
    + reflexivity.
    + vm_compute. discriminate.
    + intros p Hin Hd Hacc. simpl in Hin.
      destruct Hin as [<-|[<-|[<-|[]]]]; vm_compute in Hd; try discriminate.
      reflexivity.
Defined.

Lemma installed_app_ids_In (db : Database)
      (tenant_account : TenantAccountJoin.t) (i : string) :
  In i (EmailAppsApi.installed_app_ids db tenant_account) <->
  exists row, In row (installed_apps db)
              /\ InstalledApp.tenant_id row
                 = TenantAccountJoin.tenant_id tenant_account
              /\ InstalledApp.app_id row = i.
Proof.
  unfold EmailAppsApi.installed_app_ids, Query.all.
  rewrite in_map_iff. split.
  - intros [row [Hi Hrow]]. apply filter_In in Hrow.
    destruct Hrow as [Hin Ht]. apply String.eqb_eq in Ht.
    exists row. repeat split; assumption.
  - intros [row [Hin [Ht Hi]]]. exists row. split; [exact Hi|].
    apply filter_In. split; [exact Hin|]. apply String.eqb_eq, Ht.
Qed.

(** The rule the app listing applies to one row, on either branch of the
    test on the installed ids. *)
Lemma app_query_In (db : Database) (account : Account.t)
      (tenant_account : TenantAccountJoin.t) (a : App.t) :
  In a (EmailAppsApi.query db account tenant_account) <->
  In a (apps db)
  /\ App.tenant_id a = TenantAccountJoin.tenant_id tenant_account
  /\ (App.created_by a = Account.id account
      \/ App.is_public a = true
      \/ exists row, In row (installed_apps db)
                     /\ InstalledApp.tenant_id row
                        = TenantAccountJoin.tenant_id tenant_account
                     /\ InstalledApp.app_id row = App.id a).
Proof.
  unfold EmailAppsApi.query.
  rewrite <- (installed_app_ids_In db tenant_account (App.id a)).
  destruct (EmailAppsApi.installed_app_ids db tenant_account) as [|i ids] eqn:E.
  - rewrite filter_In. unfold EmailAppsApi.base_query. rewrite filter_In.
    rewrite orb_true_iff, String.eqb_eq, String.eqb_eq, eqb_true_iff_true.
    simpl. tauto.
  - rewrite filter_In. unfold EmailAppsApi.base_query. rewrite filter_In.
    rewrite !orb_true_iff, String.eqb_eq, String.eqb_eq, eqb_true_iff_true.
    rewrite in__In. tauto.
Qed.

(** C2. In [EmailAppsApi.get], once the account and its tenant are
    resolved, an app row of the tenant belongs to the query result exactly
    when it is created by the account, or public, or named by an
    [InstalledApp] row of the tenant.  [total] counts that result, the
    page is drawn from it and the first page holds all of it when the
    limit covers the total.  In particular an app of another creator that
    is not public but is installed for the tenant is in the result. *)
Theorem app_visibility (db : Database) (args : Args)
        (account : Account.t) (tenant_account : TenantAccountJoin.t) :
  EmailAppsApi.find_account db (arg_email args) = Some account ->
  EmailAppsApi.find_tenant_account db account = Some tenant_account ->
  let r := EmailAppsApi.get db args in
  let q := EmailAppsApi.query db account tenant_account in
  (forall a,
      In a q <->
      In a (apps db)
      /\ App.tenant_id a = TenantAccountJoin.tenant_id tenant_account
      /\ (App.created_by a = Account.id account
          \/ App.is_public a = true
          \/ exists row, In row (installed_apps db)
                         /\ InstalledApp.tenant_id row
                            = TenantAccountJoin.tenant_id tenant_account
                         /\ InstalledApp.app_id row = App.id a))
  /\ total r = Z.of_nat (List.length q)
  /\ (forall a, In a (data r) -> In a q)
  /\ (arg_page args = 1 -> total r <= arg_limit args ->
      forall a, In a q -> In a (data r))
  /\ (forall a row,
         In a (apps db) ->
         App.tenant_id a = TenantAccountJoin.tenant_id tenant_account ->
         App.created_by a <> Account.id account ->
         App.is_public a = false ->
         In row (installed_apps db) ->
         InstalledApp.tenant_id row
         = TenantAccountJoin.tenant_id tenant_account ->
         InstalledApp.app_id row = App.id a ->
         In a q).
Proof.
  intros Ha Ht r q.
  split; [intros a; apply app_query_In|].
  split.
  { subst r q. unfold EmailAppsApi.get. rewrite Ha, Ht. reflexivity. }
  split.
  { intros a. subst r q. unfold EmailAppsApi.get. rewrite Ha, Ht. simpl.
    unfold Query.all. apply page_In. }
  split.
  - intros Hpage Hlim a Hin. subst r q.
    unfold EmailAppsApi.get in *. rewrite Ha, Ht in *. simpl in *.
    rewrite Hpage. simpl. unfold Query.all.
    rewrite page_all by exact Hlim.
    apply order_by_desc_In. exact Hin.
  - intros a row Hin Hten _ _ Hrow Hrt Hid.
    apply app_query_In. split; [exact Hin|]. split; [exact Hten|].
    right. right. exists row. repeat split; assumption.
Qed.

(** On the sample tenant, Bob's installed private app is listed for Alice
    and his other private app is not. *)
Lemma app_visibility_witness :
  In Sample.app_installed
     (data (EmailAppsApi.get Sample.db (Sample.alice_args 1 20)))
  /\ ~ In Sample.app_hidden
       (data (EmailAppsApi.get Sample.db (Sample.alice_args 1 20))).
Proof.
  pose proof (app_visibility Sample.db (Sample.alice_args 1 20)
                Sample.alice
                (TenantAccountJoin.Build "tenant-main" "acc-alice" true)
                eq_refl eq_refl) as H.
  cbv zeta in H. destruct H as [Hiff [_ [Hsub [Hall Hinst]]]].
  split.
  - apply Hall; [reflexivity | vm_compute; discriminate |].
    apply (Hinst Sample.app_installed
                 (InstalledApp.Build "tenant-main" "app-installed")).
    + simpl. auto.
    + reflexivity.
    + vm_compute. discriminate.
    + reflexivity.
    + simpl. auto.
    + reflexivity.
    + reflexivity.
  - intros Hin. apply Hsub, Hiff in Hin.
    destruct Hin as [_ [_ [H|[H|[row [Hrow [_ Hid]]]]]]].
    + vm_compute in H. discriminate.
    + discriminate.
    + simpl in Hrow. destruct Hrow as [<-|[]]. vm_compute in Hid. discriminate.
Defined.

Lemma find_account_None (db : Database) (email : string) :
  (forall a, In a (accounts db) -> Account.email a <> email) ->
  EmailDatasetsApi.find_account db email = None
  /\ EmailAppsApi.find_account db email = None.
Proof.
  intros H.
  assert (Hf : Query.first
                 (filter (fun a => Account.email a =? email)%string
                         (accounts db)) = None).
  { apply first_filter_None. intros a Ha. apply String.eqb_neq, H, Ha. }
  split; exact Hf.
Qed.

Lemma find_tenant_account_None (db : Database) (account : Account.t) :
  (forall j, In j (tenant_account_joins db) ->
             TenantAccountJoin.account_id j <> Account.id account) ->
  EmailDatasetsApi.find_tenant_account db account = None
  /\ EmailAppsApi.find_tenant_account db account = None.
Proof.
  intros H.
  assert (Hany : Query.first
                   (filter (fun j =>
                              (TenantAccountJoin.account_id j
                               =? Account.id account)%string)
                           (tenant_account_joins db)) = None).
  { apply first_filter_None. intros j Hj. apply String.eqb_neq, H, Hj. }
  assert (Hcur : Query.first
                   (filter (fun j =>
                              (TenantAccountJoin.account_id j
                               =? Account.id account)%string
                              && Bool.eqb (TenantAccountJoin.current j) true)
                           (tenant_account_joins db)) = None).
  { apply first_filter_None. intros j Hj.
    apply andb_false_iff. left. apply String.eqb_neq, H, Hj. }
  unfold EmailDatasetsApi.find_tenant_account,
    EmailAppsApi.find_tenant_account.
  rewrite Hcur, Hany. split; reflexivity.
Qed.

(** C3. When no account row has the requested e-mail, and likewise when
    the account found has no tenant join row at all, both handlers return
    the empty page: no data, [has_more] false, [total] zero, and the
    request's own [page] and [limit]. *)
Theorem unknown_email_or_tenantless_empty_page (db : Database) (args : Args) :
  ((forall a, In a (accounts db) -> Account.email a <> arg_email args)
   \/ (exists account,
          EmailDatasetsApi.find_account db (arg_email args) = Some account
          /\ forall j, In j (tenant_account_joins db) ->
                       TenantAccountJoin.account_id j <> Account.id account)) ->
  EmailDatasetsApi.get db args
  = {| data := []; has_more := false; total := 0;
       page := arg_page args; limit := arg_limit args |}
  /\ EmailAppsApi.get db args
     = {| data := []; has_more := false; total := 0;
          page := arg_page args; limit := arg_limit args |}.
Proof.
  intros [Hnone | [account [Hacc Hjoin]]].
  - destruct (find_account_None db (arg_email args) Hnone) as [Hd Ha].
    unfold EmailDatasetsApi.get, EmailAppsApi.get.
    rewrite Hd, Ha. split; reflexivity.
  - destruct (find_tenant_account_None db account Hjoin) as [Hd Ha].
    unfold EmailDatasetsApi.get, EmailAppsApi.get.
    change (EmailAppsApi.find_account db (arg_email args))
      with (EmailDatasetsApi.find_account db (arg_email args)).
    rewrite Hacc, Hd, Ha. split; reflexivity.
Qed.

(** An unknown address, and Carol who belongs to no tenant. *)
Lemma unknown_email_or_tenantless_empty_page_witness :
  (EmailDatasetsApi.get Sample.db
     {| arg_email := "nobody@example.com"; arg_page := 2; arg_limit := 10 |}
   = {| data := []; has_more := false; total := 0; page := 2; limit := 10 |}
   /\ EmailAppsApi.get Sample.db
        {| arg_email := "nobody@example.com"; arg_page := 2; arg_limit := 10 |}
      = {| data := []; has_more := false; total := 0; page := 2; limit := 10 |})
  /\ (EmailDatasetsApi.get Sample.db
        {| arg_email := "carol@example.com"; arg_page := 1; arg_limit := 20 |}
      = {| data := []; has_more := false; total := 0; page := 1; limit := 20 |}
      /\ EmailAppsApi.get Sample.db
           {| arg_email := "carol@example.com"; arg_page := 1; arg_limit := 20 |}
         = {| data := []; has_more := false; total := 0;
              page := 1; limit := 20 |}).
Proof.
  split.
  - apply (unknown_email_or_tenantless_empty_page Sample.db
             {| arg_email := "nobody@example.com";
                arg_page := 2; arg_limit := 10 |}).
    left. intros a Ha. simpl in Ha.
    destruct Ha as [<-|[<-|[<-|[]]]]; vm_compute; discriminate.
  - apply (unknown_email_or_tenantless_empty_page Sample.db
             {| arg_email := "carol@example.com";
                arg_page := 1; arg_limit := 20 |}).
    right. exists Sample.carol. split; [reflexivity|].
    intros j Hj. simpl in Hj.
    destruct Hj as [<-|[<-|[<-|[]]]]; vm_compute; discriminate.
Defined.

Lemma get_datasets_resolved (db : Database) (args : Args)
      (account : Account.t) (tenant_account : TenantAccountJoin.t) :
  EmailDatasetsApi.find_account db (arg_email args) = Some account ->
  EmailDatasetsApi.find_tenant_account db account = Some tenant_account ->
  EmailDatasetsApi.get db args
  = let offset := (arg_page args - 1) * arg_limit args in
    let q := EmailDatasetsApi.query db account tenant_account in
    {| data := Query.limit (arg_limit args)
                 (Query.offset offset
                    (Query.order_by_desc Dataset.created_at q));
       has_more := (offset + arg_limit args) <? Query.count q;
       total := Query.count q;
       page := arg_page args;
       limit := arg_limit args |}.
Proof.
  intros Ha Ht. unfold EmailDatasetsApi.get. rewrite Ha, Ht. reflexivity.
Qed.

Lemma get_apps_resolved (db : Database) (args : Args)
      (account : Account.t) (tenant_account : TenantAccountJoin.t) :
  EmailAppsApi.find_account db (arg_email args) = Some account ->
  EmailAppsApi.find_tenant_account db account = Some tenant_account ->
  EmailAppsApi.get db args
  = let offset := (arg_page args - 1) * arg_limit args in
    let q := EmailAppsApi.query db account tenant_account in
    {| data := Query.limit (arg_limit args)
                 (Query.offset offset (Query.order_by_desc App.created_at q));
       has_more := (offset + arg_limit args) <? Query.count q;
       total := Query.count q;
       page := arg_page args;
       limit := arg_limit args |}.
Proof.
  intros Ha Ht. unfold EmailAppsApi.get. rewrite Ha, Ht. reflexivity.
Qed.

(** What a page of any row type satisfies, given the ordered result it is
    cut from. *)
Lemma page_facts {A : Type} (col : A -> Z) (q : list A) (pg lim : Z) :
  1 <= pg ->
  let offset := (pg - 1) * lim in
  let rows := Query.limit lim (Query.offset offset (Query.order_by_desc col q)) in
  Sorted (Query.desc col) rows
  /\ (0 <= lim ->
      Z.of_nat (List.length rows) = Z.min lim (Z.max 0 (Query.count q - offset)))
  /\ (lim = 20 -> Query.count q = 45 ->
      (pg = 1 -> (offset + lim <? Query.count q) = true
                 /\ List.length rows = 20%nat)
      /\ (pg = 3 -> offset = 40
                    /\ (offset + lim <? Query.count q) = false
                    /\ List.length rows = 5%nat)).
Proof.
  intros Hpg offset rows.
  split; [apply page_sorted|].
  assert (Hlen : 0 <= lim ->
                 Z.of_nat (List.length rows)
                 = Z.min lim (Z.max 0 (Query.count q - offset))).
  { intros Hlim. apply page_length; [subst offset; nia | exact Hlim]. }
  split; [exact Hlen|].
  intros Hlim Htot. specialize (Hlen ltac:(lia)).
  rewrite Htot in *. subst lim.
  split; intros ->; subst offset; simpl in *.
  - split; [reflexivity | lia].
  - repeat split; lia.
Qed.

Section PageWindow.
Context {A : Type}.
Variable col : A -> Z.

Lemma desc_transitive : Relations_1.Transitive (Query.desc col).
Proof. intros a b c Hab Hbc. unfold Query.desc in *. lia. Qed.

(** With pairwise distinct values of [col], a result has one decreasing
    order only. *)
Lemma sorted_perm_unique (l1 l2 : list A) :
  NoDup (map col l1) ->
  Sorted (Query.desc col) l1 -> Sorted (Query.desc col) l2 ->
  Permutation l1 l2 -> l1 = l2.
Proof.
  revert l2. induction l1 as [|x l1 IH]; intros l2 Hnd H1 H2 Hp.
  - apply Permutation_nil in Hp. congruence.
  - destruct l2 as [|y l2].
    { apply Permutation_sym, Permutation_nil in Hp. discriminate. }
    assert (Hxy : x = y).
    { pose proof (Permutation_in x Hp (or_introl eq_refl)) as Hx.
      pose proof (Permutation_in y (Permutation_sym Hp) (or_introl eq_refl))
        as Hy.
      destruct Hx as [Hx|Hx]; [congruence|].
      destruct Hy as [Hy|Hy]; [congruence|].
      pose proof (Sorted_extends desc_transitive H1) as F1.
      pose proof (Sorted_extends desc_transitive H2) as F2.
      rewrite Forall_forall in F1, F2.
      pose proof (F1 y Hy) as L1. pose proof (F2 x Hx) as L2.
      unfold Query.desc in L1, L2.
      exfalso. inversion Hnd as [|? ? Hnotin _]; subst.
      apply Hnotin. replace (col x) with (col y) by lia.
      apply in_map, Hy. }
    subst y. f_equal. apply IH.
    + inversion Hnd; assumption.
    + inversion H1; assumption.
    + inversion H2; assumption.
    + eapply Permutation_cons_inv, Hp.
Qed.

Lemma order_by_desc_unique (q ordered : list A) :
  NoDup (map col q) ->
  Permutation ordered q -> Sorted (Query.desc col) ordered ->
  Query.order_by_desc col q = ordered.
Proof.
  intros Hnd Hp Hs. apply sorted_perm_unique.
  - eapply Permutation_NoDup; [|exact Hnd].
    apply Permutation_map, Permutation_sym, order_by_desc_perm.
  - apply order_by_desc_sorted.
  - exact Hs.
  - eapply perm_trans; [apply order_by_desc_perm|].
    apply Permutation_sym, Hp.
Qed.

(** For [limit >= 0] the page is the window, from the offset and of at
    most [limit] rows, of a decreasing order of the result; with distinct
    values of [col] it is that window of the only such order. *)
Lemma page_window (q : list A) (pg lim : Z) :
  1 <= pg -> 0 <= lim ->
  let offset := (pg - 1) * lim in
  let rows :=
    Query.limit lim (Query.offset offset (Query.order_by_desc col q)) in
  (exists ordered,
      Permutation ordered q /\ Sorted (Query.desc col) ordered
      /\ rows = firstn (Z.to_nat lim) (skipn (Z.to_nat offset) ordered))
  /\ Z.of_nat (List.length rows)
     = Z.min lim (Z.max 0 (Query.count q - offset))
  /\ (NoDup (map col q) ->
      forall ordered,
        Permutation ordered q -> Sorted (Query.desc col) ordered ->
        rows = firstn (Z.to_nat lim) (skipn (Z.to_nat offset) ordered)).
Proof.
  intros Hpg Hlim offset rows.
  assert (Hrows : rows = firstn (Z.to_nat lim)
                           (skipn (Z.to_nat offset)
                                  (Query.order_by_desc col q))).
  { subst rows. rewrite limit_nonneg by exact Hlim. reflexivity. }
  split; [|split].
  - exists (Query.order_by_desc col q).
    split; [apply order_by_desc_perm|].
    split; [apply order_by_desc_sorted | exact Hrows].
  - subst rows. apply page_length; [subst offset; nia | exact Hlim].
  - intros Hnd ordered Hp Hs.
    rewrite <- (order_by_desc_unique q ordered Hnd Hp Hs). exact Hrows.
Qed.

End PageWindow.

Ltac split_page_goals Hs Hw Hc :=
  repeat match goal with |- _ /\ _ => split end;
  [ reflexivity | reflexivity | reflexivity | reflexivity
  | exact Hs
  | exact Hw
  | let H1 := fresh in
    let H2 := fresh in
    let H3 := fresh in
    let P1 := fresh in
    let P3 := fresh in
    intros H1 H2; destruct (Hc H1 H2) as [P1 P3];
    split; [intros H3; apply (P1 H3) | exact P3] ].

(** C4. For every [page >= 1] and every [limit], on the path that reaches
    the listing, both handlers take [offset = (page - 1) * limit] and
    answer [has_more = (offset + limit < total)], with [total] the size
    of the query result and [page] and [limit] echoed; the rows returned
    are in decreasing order of [created_at].  For [limit >= 0], where SQL
    defines the page, the rows are the window of at most [limit] rows
    from that offset of a decreasing order of the result (of the only
    one when the [created_at] values are distinct), and their number is
    [min limit (max 0 (total - offset))].  With [total = 45] and
    [limit = 20], page 1 has [has_more = true], and page 3 has offset 40,
    [has_more = false] and 5 rows. *)
Theorem pagination (db : Database) (args : Args)
        (account : Account.t) (tenant_account : TenantAccountJoin.t) :
  1 <= arg_page args ->
  EmailDatasetsApi.find_account db (arg_email args) = Some account ->
  EmailDatasetsApi.find_tenant_account db account = Some tenant_account ->
  let offset := (arg_page args - 1) * arg_limit args in
  let rd := EmailDatasetsApi.get db args in
  let qd := EmailDatasetsApi.query db account tenant_account in
  let ra := EmailAppsApi.get db args in
  let qa := EmailAppsApi.query db account tenant_account in
  (total rd = Query.count qd
   /\ has_more rd = (offset + arg_limit args <? total rd)
   /\ page rd = arg_page args /\ limit rd = arg_limit args
   /\ Sorted (Query.desc Dataset.created_at) (data rd)
   /\ (0 <= arg_limit args ->
       (exists ordered,
           Permutation ordered qd
           /\ Sorted (Query.desc Dataset.created_at) ordered
           /\ data rd = firstn (Z.to_nat (arg_limit args))
                               (skipn (Z.to_nat offset) ordered))
       /\ Z.of_nat (List.length (data rd))
          = Z.min (arg_limit args) (Z.max 0 (total rd - offset))
       /\ (NoDup (map Dataset.created_at qd) ->
           forall ordered,
             Permutation ordered qd ->
             Sorted (Query.desc Dataset.created_at) ordered ->
             data rd = firstn (Z.to_nat (arg_limit args))
                              (skipn (Z.to_nat offset) ordered)))
   /\ (arg_limit args = 20 -> total rd = 45 ->
       (arg_page args = 1 -> has_more rd = true)
       /\ (arg_page args = 3 ->
           offset = 40 /\ has_more rd = false
           /\ List.length (data rd) = 5%nat)))
  /\ (total ra = Query.count qa
      /\ has_more ra = (offset + arg_limit args <? total ra)
      /\ page ra = arg_page args /\ limit ra = arg_limit args
      /\ Sorted (Query.desc App.created_at) (data ra)
      /\ (0 <= arg_limit args ->
          (exists ordered,
              Permutation ordered qa
              /\ Sorted (Query.desc App.created_at) ordered
              /\ data ra = firstn (Z.to_nat (arg_limit args))
                                  (skipn (Z.to_nat offset) ordered))
          /\ Z.of_nat (List.length (data ra))
             = Z.min (arg_limit args) (Z.max 0 (total ra - offset))
          /\ (NoDup (map App.created_at qa) ->
              forall ordered,
                Permutation ordered qa ->
                Sorted (Query.desc App.created_at) ordered ->
                data ra = firstn (Z.to_nat (arg_limit args))
                                 (skipn (Z.to_nat offset) ordered)))
      /\ (arg_limit args = 20 -> total ra = 45 ->
          (arg_page args = 1 -> has_more ra = true)
          /\ (arg_page args = 3 ->
              offset = 40 /\ has_more ra = false
              /\ List.length (data ra) = 5%nat))).
Proof.
  intros Hpg Ha Ht offset rd qd ra qa.
  split.
  - subst rd. rewrite (get_datasets_resolved db args account tenant_account Ha Ht). cbv zeta. simpl.
    fold offset. fold qd.
    destruct (page_facts Dataset.created_at qd (arg_page args) (arg_limit args) Hpg)
      as [Hs [_ Hc]].
    pose proof (fun H => page_window Dataset.created_at qd
                           (arg_page args) (arg_limit args) Hpg H) as Hw.
    cbv zeta in Hw.
    fold offset in Hs, Hc, Hw.
    split_page_goals Hs Hw Hc.
  - subst ra. rewrite (get_apps_resolved db args account tenant_account Ha Ht). cbv zeta. simpl.
    fold offset. fold qa.
    destruct (page_facts App.created_at qa (arg_page args) (arg_limit args) Hpg)
      as [Hs [_ Hc]].
    pose proof (fun H => page_window App.created_at qa
                           (arg_page args) (arg_limit args) Hpg H) as Hw.
    cbv zeta in Hw.
    fold offset in Hs, Hc, Hw.
    split_page_goals Hs Hw Hc.
Qed.

(** Alice's third page of 20 over 45 datasets and 45 apps. *)
Lemma pagination_witness :
  (has_more (EmailDatasetsApi.get Sample.big_db (Sample.alice_args 3 20)) = false
   /\ List.length (data (EmailDatasetsApi.get Sample.big_db
                           (Sample.alice_args 3 20))) = 5%nat)
  /\ (has_more (EmailAppsApi.get Sample.big_db (Sample.alice_args 3 20)) = false
      /\ List.length (data (EmailAppsApi.get Sample.big_db
                              (Sample.alice_args 3 20))) = 5%nat).
Proof.
  pose proof (pagination Sample.big_db (Sample.alice_args 3 20) Sample.alice
                (TenantAccountJoin.Build "tenant-main" "acc-alice" true)
                ltac:(simpl; lia) eq_refl eq_refl) as H.
  cbv zeta in H.
  destruct H as [[_ [_ [_ [_ [_ [_ Hd]]]]]] [_ [_ [_ [_ [_ [_ Ha]]]]]]].
  split.
  - destruct (Hd eq_refl eq_refl) as [_ H3].
    destruct (H3 eq_refl) as [_ [Hm Hl]]. split; assumption.
  - destruct (Ha eq_refl eq_refl) as [_ H3].
    destruct (H3 eq_refl) as [_ [Hm Hl]]. split; assumption.
Defined.

Lemma first_filter_exists {A : Type} (f : A -> bool) (l : list A) (x : A) :
  In x l -> f x = true ->
  exists y, Query.first (filter f l) = Some y /\ In y l /\ f y = true.
Proof.
  intros Hin Hf.
  destruct (Query.first (filter f l)) as [y|] eqn:E.
  - exists y. split; [reflexivity|]. apply first_filter_Some, E.
  - rewrite first_filter_None in E. rewrite (E x Hin) in Hf. discriminate.
Qed.

Lemma find_tenant_account_same (db : Database) (account : Account.t) :
  EmailAppsApi.find_tenant_account db account
  = EmailDatasetsApi.find_tenant_account db account.
Proof. reflexivity. Qed.

(** When some join row of the account is flagged current, the row
    selected is flagged current. *)
Lemma find_tenant_account_current (db : Database) (account : Account.t)
      (j : TenantAccountJoin.t) :
  In j (tenant_account_joins db) ->
  TenantAccountJoin.account_id j = Account.id account ->
  TenantAccountJoin.current j = true ->
  exists j',
    EmailDatasetsApi.find_tenant_account db account = Some j'
    /\ In j' (tenant_account_joins db)
    /\ TenantAccountJoin.account_id j' = Account.id account
    /\ TenantAccountJoin.current j' = true.
Proof.
  intros Hin Hacc Hcur.
  unfold EmailDatasetsApi.find_tenant_account.
  destruct (first_filter_exists
              (fun j =>
                 (TenantAccountJoin.account_id j =? Account.id account)%string
                 && Bool.eqb (TenantAccountJoin.current j) true)
              (tenant_account_joins db) j Hin) as [j' [E [Hin' Hf]]].
  { rewrite Hacc, Hcur, String.eqb_refl. reflexivity. }
  rewrite E. exists j'. split; [reflexivity|]. split; [exact Hin'|].
  apply andb_true_iff in Hf. destruct Hf as [H1 H2].
  apply String.eqb_eq in H1. apply Bool.eqb_prop in H2. split; assumption.
Qed.

(** When no join row of the account is flagged current, the row selected
    is the first join row of the account. *)
Lemma find_tenant_account_fallback (db : Database) (account : Account.t) :
  (forall j, In j (tenant_account_joins db) ->
             TenantAccountJoin.account_id j = Account.id account ->
             TenantAccountJoin.current j = false) ->
  EmailDatasetsApi.find_tenant_account db account
  = Query.first
      (filter (fun j =>
                 (TenantAccountJoin.account_id j =? Account.id account)%string)
              (tenant_account_joins db)).
Proof.
  intros H. unfold EmailDatasetsApi.find_tenant_account.
  replace (Query.first
             (filter (fun j =>
                        (TenantAccountJoin.account_id j
                         =? Account.id account)%string
                        && Bool.eqb (TenantAccountJoin.current j) true)
                     (tenant_account_joins db)))
    with (@None TenantAccountJoin.t); [reflexivity|].
  symmetry. apply first_filter_None. intros j Hj.
  destruct (TenantAccountJoin.account_id j =? Account.id account)%string eqn:E;
    [|reflexivity].
  apply String.eqb_eq in E. rewrite (H j Hj E). reflexivity.
Qed.

(** C5. Both handlers resolve the tenant the same way.  If some join row
    of the account found has [current = true], the row selected is such a
    row; only when the account has no such row is the first join row of
    the account taken.  So when [j] is a current join row of the account
    and every current join row of the account names [j]'s tenant, the
    tenant selected is [j]'s whatever other non-current rows exist and
    wherever they are stored, and every row both handlers return belongs
    to that tenant. *)
Theorem current_tenant_preferred (db : Database) (args : Args)
        (account : Account.t) :
  EmailDatasetsApi.find_account db (arg_email args) = Some account ->
  EmailAppsApi.find_tenant_account db account
  = EmailDatasetsApi.find_tenant_account db account
  /\ (forall j,
         In j (tenant_account_joins db) ->
         TenantAccountJoin.account_id j = Account.id account ->
         TenantAccountJoin.current j = true ->
         exists j',
           EmailDatasetsApi.find_tenant_account db account = Some j'
           /\ In j' (tenant_account_joins db)
           /\ TenantAccountJoin.account_id j' = Account.id account
           /\ TenantAccountJoin.current j' = true)
  /\ ((forall j, In j (tenant_account_joins db) ->
                 TenantAccountJoin.account_id j = Account.id account ->
                 TenantAccountJoin.current j = false) ->
      EmailDatasetsApi.find_tenant_account db account
      = Query.first
          (filter (fun j =>
                     (TenantAccountJoin.account_id j
                      =? Account.id account)%string)
                  (tenant_account_joins db)))
  /\ (forall j,
         In j (tenant_account_joins db) ->
         TenantAccountJoin.account_id j = Account.id account ->
         TenantAccountJoin.current j = true ->
         (forall k, In k (tenant_account_joins db) ->
                    TenantAccountJoin.account_id k = Account.id account ->
                    TenantAccountJoin.current k = true ->
                    TenantAccountJoin.tenant_id k
                    = TenantAccountJoin.tenant_id j) ->
         (exists j',
             EmailDatasetsApi.find_tenant_account db account = Some j'
             /\ TenantAccountJoin.tenant_id j' = TenantAccountJoin.tenant_id j)
         /\ (forall d, In d (data (EmailDatasetsApi.get db args)) ->
                       Dataset.tenant_id d = TenantAccountJoin.tenant_id j)
         /\ (forall a, In a (data (EmailAppsApi.get db args)) ->
                       App.tenant_id a = TenantAccountJoin.tenant_id j)).
Proof.
  intros Ha.
  split; [apply find_tenant_account_same|].
  split; [intros j; apply find_tenant_account_current|].
  split; [apply find_tenant_account_fallback|].
  intros j Hin Hacc Hcur Huniq.
  destruct (find_tenant_account_current db account j Hin Hacc Hcur)
    as [j' [E [Hin' [Hacc' Hcur']]]].
  pose proof (Huniq j' Hin' Hacc' Hcur') as Hten.
  split; [exists j'; split; assumption|].
  split.
  - intros d Hd.
    rewrite (get_datasets_resolved db args account j' Ha E) in Hd.
    cbv zeta in Hd. simpl in Hd. apply page_In in Hd.
    apply dataset_query_In in Hd. destruct Hd as [_ [Hd _]]. congruence.
  - intros a Hin_a.
    rewrite (get_apps_resolved db args account j' Ha E) in Hin_a.
    cbv zeta in Hin_a. simpl in Hin_a. apply page_In in Hin_a.
    apply app_query_In in Hin_a. destruct Hin_a as [_ [Hd _]]. congruence.
Qed.

(** Alice's non-current membership of [tenant-old] is stored first, and
    her current tenant [tenant-main] is the one selected. *)
Lemma current_tenant_preferred_witness :
  EmailDatasetsApi.find_tenant_account Sample.db Sample.alice
  = Some (TenantAccountJoin.Build "tenant-main" "acc-alice" true)
  /\ (forall d, In d (data (EmailDatasetsApi.get Sample.db
                              (Sample.alice_args 1 20))) ->
                Dataset.tenant_id d = "tenant-main").
Proof.
  pose proof (current_tenant_preferred Sample.db (Sample.alice_args 1 20)
                Sample.alice eq_refl) as H.
  destruct H as [_ [_ [_ H]]].
  specialize (H (TenantAccountJoin.Build "tenant-main" "acc-alice" true)).
  destruct H as [[j' [E Hten]] [Hd _]].
  - simpl. auto.
  - reflexivity.
  - reflexivity.
  - intros k Hk Hacc Hcur. simpl in Hk.
    destruct Hk as [<-|[<-|[<-|[]]]]; try discriminate; reflexivity.
  - split; [reflexivity | exact Hd].
Defined.

(* ===================================================================== *)
(** * Part IX: properties of the OAuth adapters                           *)
(* ===================================================================== *)

Lemma truthy_not_empty (v : Py.value) :
  Py.truthy v = true -> v <> Py.PyNone /\ v <> Py.PyStr "".
Proof. intros H; split; intros ->; discriminate. Qed.

(** The last two statements of every [get_access_token]: a value that
    comes out has passed the truth test. *)
Lemma token_guard (m : Py.result Py.value) (e : Py.value -> Py.exn)
      (tok : Py.value) :
  (access_token <- m ;;
   if negb (Py.truthy access_token) then Py.Raise (e access_token)
   else Py.Ok access_token) = Py.Ok tok ->
  Py.truthy tok = true.
Proof.
  destruct m as [v|x]; simpl; [|discriminate].
  destruct (Py.truthy v) eqn:E; simpl; [|discriminate].
  intros H. injection H as <-. exact E.
Qed.

Lemma extract_access_token_dict (d : Py.dict) :
  AILabOAuth.extract_access_token (Py.PyDict d)
  = Py.Ok (match Provider.spec_token_field Provider.AILab d with
           | Some v => v
           | None => Py.PyNone
           end).
Proof.
  unfold AILabOAuth.extract_access_token, Provider.spec_token_field. simpl.
  destruct (Py.lookup "data" d) as [inner|] eqn:E; simpl.
  - destruct inner; simpl; rewrite ?E; simpl;
      try (destruct (Py.lookup "access_token" d); reflexivity).
    destruct (Py.lookup "access_token" d0); reflexivity.
  - destruct (Py.lookup "access_token" d); reflexivity.
Qed.

Lemma extract_access_token_not_dict (v : Py.value) :
  Py.isinstance_dict v = false ->
  exists e, AILabOAuth.extract_access_token v = Py.Raise e.
Proof.
  unfold AILabOAuth.extract_access_token.
  destruct v; simpl; try discriminate; intros _; eauto.
  - destruct (Py.is_substring "data" s); simpl; eauto.
  - destruct (existsb (Py.eq_str "data") l); simpl; eauto.
Qed.

(** What each provider's [get_access_token] answers on a token response
    that is a JSON object. *)
Lemma get_access_token_dict (repr_str : string -> string)
      (net : Requests.Request -> Requests.Response) (self : OAuth.t)
      (p : Provider.t) (code : Py.value) (d : Py.dict) :
  Requests.body (net (Provider.token_request self p code))
  = Some (Py.PyDict d) ->
  exists msg,
    Provider.get_access_token repr_str net self p code
    = let access_token :=
        match Provider.spec_token_field p d with
        | Some v => v
        | None => Py.PyNone
        end in
      if negb (Py.truthy access_token)
      then Py.Raise (Py.ValueError msg)
      else Py.Ok access_token.
Proof.
  intros Hb. destruct p; simpl in *.
  - unfold GitHubOAuth.get_access_token, Requests.json. rewrite Hb. simpl.
    destruct (Py.lookup "access_token" d); simpl; eauto.
  - unfold GoogleOAuth.get_access_token, Requests.json. rewrite Hb. simpl.
    destruct (Py.lookup "access_token" d); simpl; eauto.
  - unfold AILabOAuth.get_access_token, Requests.json. rewrite Hb.
    cbv beta iota zeta. unfold Py.bind at 1.
    rewrite extract_access_token_dict. simpl. eauto.
Qed.

(** C6. For each of the three providers: a value returned by
    [get_access_token] is never [None] nor the empty string; when the
    token response is a JSON object in which the token is missing, null
    or the empty string, the call raises [ValueError]; when the token is
    there and non-empty (more generally, true as a condition) it is the
    value returned; and a response that is not a JSON object raises. *)
Theorem get_access_token_requires_token
        (repr_str : string -> string)
        (net : Requests.Request -> Requests.Response) (self : OAuth.t)
        (p : Provider.t) (code : Py.value) :
  (forall tok,
      Provider.get_access_token repr_str net self p code = Py.Ok tok ->
      tok <> Py.PyNone /\ tok <> Py.PyStr "" /\ Py.truthy tok = true)
  /\ (forall d,
         Requests.body (net (Provider.token_request self p code))
         = Some (Py.PyDict d) ->
         ((Provider.spec_token_field p d = None
           \/ Provider.spec_token_field p d = Some Py.PyNone
           \/ Provider.spec_token_field p d = Some (Py.PyStr "")) ->
          exists msg,
            Provider.get_access_token repr_str net self p code
            = Py.Raise (Py.ValueError msg))
         /\ (forall t,
                Provider.spec_token_field p d = Some t ->
                (Py.truthy t = true
                 \/ exists s, t = Py.PyStr s /\ s <> "") ->
                Provider.get_access_token repr_str net self p code = Py.Ok t))
  /\ ((forall d,
          Requests.body (net (Provider.token_request self p code))
          <> Some (Py.PyDict d)) ->
      exists e,
        Provider.get_access_token repr_str net self p code = Py.Raise e).
Proof.
  split; [|split].
  - intros tok H.
    assert (Ht : Py.truthy tok = true).
    { destruct p; simpl in H.
      + unfold GitHubOAuth.get_access_token in H.
        destruct (Requests.json _) as [rj|x]; simpl in H; [|discriminate].
        eapply token_guard with (e := fun _ => _). exact H.
      + unfold GoogleOAuth.get_access_token in H.
        destruct (Requests.json _) as [rj|x]; simpl in H; [|discriminate].
        eapply token_guard with (e := fun _ => _). exact H.
      + unfold AILabOAuth.get_access_token in H.
        destruct (Requests.json _) as [rj|x]; simpl in H; [|discriminate].
        eapply token_guard with (e := fun _ => _). exact H. }
    destruct (truthy_not_empty tok Ht). auto.
  - intros d Hb.
    destruct (get_access_token_dict repr_str net self p code d Hb)
      as [msg Hg].
    cbv zeta in Hg. split.
    + intros Hmiss. exists msg. rewrite Hg.
      destruct Hmiss as [-> | [-> | ->]]; reflexivity.
    + intros t Hf Ht. rewrite Hg, Hf.
      assert (Htrue : Py.truthy t = true).
      { destruct Ht as [Ht | [s [-> Hs]]]; [exact Ht|].
        simpl. apply negb_true_iff, String.eqb_neq, Hs. }
      rewrite Htrue. reflexivity.
  - intros Hnd.
    destruct (Requests.body (net (Provider.token_request self p code)))
      as [v|] eqn:Hb.
    + assert (Hv : Py.isinstance_dict v = false).
      { destruct v; try reflexivity. exfalso. apply (Hnd d). reflexivity. }
      destruct p; simpl in *.
      * unfold GitHubOAuth.get_access_token, Requests.json. rewrite Hb.
        destruct v; simpl; try discriminate; eauto.
      * unfold GoogleOAuth.get_access_token, Requests.json. rewrite Hb.
        destruct v; simpl; try discriminate; eauto.
      * unfold AILabOAuth.get_access_token, Requests.json. rewrite Hb.
        destruct (extract_access_token_not_dict v Hv) as [e He].
        cbv beta iota zeta. unfold Py.bind at 1. rewrite He. simpl. eauto.
    + destruct p; simpl in *.
      * unfold GitHubOAuth.get_access_token, Requests.json. rewrite Hb.
        simpl. eauto.
      * unfold GoogleOAuth.get_access_token, Requests.json. rewrite Hb.
        simpl. eauto.
      * unfold AILabOAuth.get_access_token, Requests.json. rewrite Hb.
        simpl. eauto.
Qed.

(** GitHub's error object carries no token; the AI Lab wrapped answer
    carries one. *)
Lemma get_access_token_requires_token_witness :
  (exists msg,
      Provider.get_access_token Sample.repr_str
        (Sample.always
           (Sample.json_response 200
              (Py.PyDict [("error", Py.PyStr "bad_verification_code")])))
        Sample.self Provider.GitHub (Py.PyStr "code")
      = Py.Raise (Py.ValueError msg))
  /\ Provider.get_access_token Sample.repr_str
       (Sample.always
          (Sample.json_response 200 (Sample.wrapped_token (Py.PyStr "tok"))))
       Sample.self Provider.AILab (Py.PyStr "code")
     = Py.Ok (Py.PyStr "tok").
Proof.
  split.
  - destruct (get_access_token_requires_token Sample.repr_str
                (Sample.always
                   (Sample.json_response 200
                      (Py.PyDict
                         [("error", Py.PyStr "bad_verification_code")])))
                Sample.self Provider.GitHub (Py.PyStr "code"))
      as [_ [H _]].
    destruct (H _ eq_refl) as [Hmissing _].
    apply Hmissing. left. reflexivity.
  - destruct (get_access_token_requires_token Sample.repr_str
                (Sample.always
                   (Sample.json_response 200
                      (Sample.wrapped_token (Py.PyStr "tok"))))
                Sample.self Provider.AILab (Py.PyStr "code"))
      as [_ [H _]].
    destruct (H _ eq_refl) as [_ Hpresent].
    apply Hpresent; [reflexivity | left; reflexivity].
Defined.

(** C7. For every token value [t], [AILabOAuth.get_access_token] reads
    the same [t] out of the wrapped answer
    [{code, msg, data: {access_token: t}}] and out of the flat answer
    [{access_token: t}], so both calls return [t], or both raise
    [ValueError] when [t] is empty.  The wrapped shape is tried first: a
    dictionary under [data] is where the token is read, whatever the top
    level holds; any other answer object is read at the top level. *)
Theorem ailab_wrapped_and_flat_same_token
        (repr_str : string -> string) (self : OAuth.t) (code : Py.value)
        (net_w net_f : Requests.Request -> Requests.Response)
        (t c m : Py.value) :
  Requests.body (net_w (AILabOAuth.token_request self code))
  = Some (Py.PyDict [("code", c); ("msg", m);
                     ("data", Py.PyDict [("access_token", t)])]) ->
  Requests.body (net_f (AILabOAuth.token_request self code))
  = Some (Py.PyDict [("access_token", t)]) ->
  (AILabOAuth.extract_access_token
     (Py.PyDict [("code", c); ("msg", m);
                 ("data", Py.PyDict [("access_token", t)])]) = Py.Ok t
   /\ AILabOAuth.extract_access_token (Py.PyDict [("access_token", t)])
      = Py.Ok t)
  /\ (Py.truthy t = true ->
      AILabOAuth.get_access_token repr_str net_w self code = Py.Ok t
      /\ AILabOAuth.get_access_token repr_str net_f self code = Py.Ok t)
  /\ (Py.truthy t = false ->
      (exists msg, AILabOAuth.get_access_token repr_str net_w self code
                   = Py.Raise (Py.ValueError msg))
      /\ (exists msg, AILabOAuth.get_access_token repr_str net_f self code
                      = Py.Raise (Py.ValueError msg)))
  /\ (forall d inner,
         Py.lookup "data" d = Some (Py.PyDict inner) ->
         AILabOAuth.extract_access_token (Py.PyDict d)
         = Py.get (Py.PyDict inner) "access_token" Py.PyNone)
  /\ (forall d,
         (forall inner, Py.lookup "data" d <> Some (Py.PyDict inner)) ->
         AILabOAuth.extract_access_token (Py.PyDict d)
         = Py.get (Py.PyDict d) "access_token" Py.PyNone).
Proof.
  intros Hw Hf.
  split; [split; reflexivity|].
  split; [|split; [|split]].
  - intros Ht. unfold AILabOAuth.get_access_token, Requests.json.
    rewrite Hw, Hf. simpl. rewrite Ht. split; reflexivity.
  - intros Ht. unfold AILabOAuth.get_access_token, Requests.json.
    rewrite Hw, Hf. simpl. rewrite Ht. simpl. split; eauto.
  - intros d inner Hd. rewrite extract_access_token_dict.
    unfold Provider.spec_token_field. rewrite Hd. simpl.
    destruct (Py.lookup "access_token" inner); reflexivity.
  - intros d Hd. rewrite extract_access_token_dict.
    unfold Provider.spec_token_field. simpl.
    destruct (Py.lookup "data" d) as [v|] eqn:E.
    + destruct v; try (destruct (Py.lookup "access_token" d); reflexivity).
      exfalso. apply (Hd d0). reflexivity.
    + destruct (Py.lookup "access_token" d); reflexivity.
Qed.

Lemma ailab_wrapped_and_flat_same_token_witness :
  AILabOAuth.get_access_token Sample.repr_str
    (Sample.always (Sample.json_response 200
                      (Sample.wrapped_token (Py.PyStr "tok"))))
    Sample.self (Py.PyStr "code") = Py.Ok (Py.PyStr "tok")
  /\ AILabOAuth.get_access_token Sample.repr_str
       (Sample.always (Sample.json_response 200
                         (Sample.flat_token (Py.PyStr "tok"))))
       Sample.self (Py.PyStr "code") = Py.Ok (Py.PyStr "tok").
Proof.
  refine (proj1 (proj2 (ailab_wrapped_and_flat_same_token
           Sample.repr_str Sample.self
           (Py.PyStr "code")
           (Sample.always (Sample.json_response 200
                             (Sample.wrapped_token (Py.PyStr "tok"))))
           (Sample.always (Sample.json_response 200
                             (Sample.flat_token (Py.PyStr "tok"))))
           (Py.PyStr "tok") (Py.PyInt 200) (Py.PyStr "ok")
           eq_refl eq_refl)) eq_refl).
Defined.

Lemma lookup_dict_set_same (k : string) (v : Py.value) (d : Py.dict) :
  Py.lookup k (Py.dict_set k v d) = Some v.
Proof.
  induction d as [|[k' v'] d IH]; simpl.
  - rewrite String.eqb_refl. reflexivity.
  - destruct (k' =? k)%string eqn:E; simpl.
    + rewrite String.eqb_refl. reflexivity.
    + rewrite E. exact IH.
Qed.

Lemma lookup_dict_set_other (k k' : string) (v : Py.value) (d : Py.dict) :
  k' <> k -> Py.lookup k' (Py.dict_set k v d) = Py.lookup k' d.
Proof.
  intros Hne.
  assert (Hf : (k =? k')%string = false) by (apply String.eqb_neq; congruence).
  induction d as [|[k0 v0] d IH]; simpl.
  - rewrite Hf. reflexivity.
  - destruct (k0 =? k)%string eqn:E; simpl.
    + apply String.eqb_eq in E. subst k0. rewrite Hf. reflexivity.
    + rewrite IH. reflexivity.
Qed.

Lemma next_primary_none (records : list Py.value) :
  Forall not_primary records ->
  GitHubOAuth.next_primary records = Py.Ok (Py.PyDict []).
Proof.
  induction 1 as [|r records [v [Hg Hv]] _ IH]; simpl.
  - reflexivity.
  - rewrite Hg. simpl. rewrite Hv. exact IH.
Qed.

Lemma next_primary_found (before after : list Py.value) (r v : Py.value) :
  Forall not_primary before ->
  Py.getitem r "primary" = Py.Ok v -> Py.eq_True v = true ->
  GitHubOAuth.next_primary (before ++ r :: after)%list = Py.Ok r.
Proof.
  intros Hb Hg Hv. induction Hb as [|r0 before [v0 [Hg0 Hv0]] _ IH]; simpl.
  - rewrite Hg. simpl. rewrite Hv. reflexivity.
  - rewrite Hg0. simpl. rewrite Hv0. exact IH.
Qed.

(** [_transform_user_info] on a profile that has [id], [login] and
    [name]. *)
Lemma github_transform (repr_str : string -> string) (raw : Py.dict)
      (uid login nm : Py.value) :
  Py.lookup "id" raw = Some uid ->
  Py.lookup "login" raw = Some login ->
  Py.lookup "name" raw = Some nm ->
  ((Py.lookup "email" raw = None
    \/ exists e, Py.lookup "email" raw = Some e /\ Py.truthy e = false) ->
   GitHubOAuth._transform_user_info repr_str (Py.PyDict raw)
   = Py.Ok {| OAuthUserInfo.id := Py.PyStr (Py.str repr_str uid);
              OAuthUserInfo.name := nm;
              OAuthUserInfo.email :=
                Py.PyStr (Py.str repr_str uid ++ "+" ++ Py.str repr_str login
                            ++ "@users.noreply.github.com") |})
  /\ (forall e,
         Py.lookup "email" raw = Some e -> Py.truthy e = true ->
         GitHubOAuth._transform_user_info repr_str (Py.PyDict raw)
         = Py.Ok {| OAuthUserInfo.id := Py.PyStr (Py.str repr_str uid);
                    OAuthUserInfo.name := nm;
                    OAuthUserInfo.email := e |}).
Proof.
  intros Hid Hlogin Hname. unfold GitHubOAuth._transform_user_info.
  split.
  - intros [He | [e [He Ht]]]; simpl; rewrite He; simpl;
      rewrite ?Ht; simpl; rewrite Hid, Hlogin; simpl;
      rewrite Hname; reflexivity.
  - intros e He Ht. simpl. rewrite He. simpl. rewrite Ht. simpl.
    rewrite Hid. simpl. rewrite Hname. reflexivity.
Qed.

(** [get_raw_user_info] once the two answers are in: the profile with its
    [email] key set from the record found. *)
Lemma github_raw_user_info (repr_str : string -> string)
      (net : Requests.Request -> Requests.Response) (token : Py.value)
      (d : Py.dict) (records : list Py.value) (found : Py.dict) :
  Requests.raise_for_status
    (net (GitHubOAuth.user_request repr_str GitHubOAuth._USER_INFO_URL token))
  = Py.Ok tt ->
  Requests.body
    (net (GitHubOAuth.user_request repr_str GitHubOAuth._USER_INFO_URL token))
  = Some (Py.PyDict d) ->
  Requests.body
    (net (GitHubOAuth.user_request repr_str GitHubOAuth._EMAIL_INFO_URL token))
  = Some (Py.PyList records) ->
  GitHubOAuth.next_primary records = Py.Ok (Py.PyDict found) ->
  GitHubOAuth.get_raw_user_info repr_str net token
  = Py.Ok (Py.PyDict
             (Py.dict_set "email"
                (match Py.lookup "email" found with
                 | Some e => e
                 | None => Py.PyStr ""
                 end) d)).
Proof.
  intros Hst Hu He Hn. unfold GitHubOAuth.get_raw_user_info, Requests.json.
  rewrite Hst, Hu, He. simpl. rewrite Hn. simpl.
  destruct (Py.lookup "email" found); reflexivity.
Qed.

(** C8. Take a GitHub profile ([/user] answered with success and with
    [id], [login] and [name]) and a list of e-mail records.  When no
    record is flagged primary, the merged profile has [email] equal to
    the empty string and the normalized e-mail is
    [{id}+{login}@users.noreply.github.com].  When a record is flagged
    primary, the first such record's non-empty e-mail is the normalized
    e-mail as it stands.  The same holds of [_transform_user_info] alone
    on any raw profile: an absent or empty [email] gives the synthesized
    address, a non-empty one is kept. *)
Theorem github_noreply_email
        (repr_str : string -> string)
        (net : Requests.Request -> Requests.Response) (token : Py.value)
        (d : Py.dict) (records : list Py.value) (uid login nm : Py.value) :
  Requests.raise_for_status
    (net (GitHubOAuth.user_request repr_str GitHubOAuth._USER_INFO_URL token))
  = Py.Ok tt ->
  Requests.body
    (net (GitHubOAuth.user_request repr_str GitHubOAuth._USER_INFO_URL token))
  = Some (Py.PyDict d) ->
  Requests.body
    (net (GitHubOAuth.user_request repr_str GitHubOAuth._EMAIL_INFO_URL token))
  = Some (Py.PyList records) ->
  Py.lookup "id" d = Some uid ->
  Py.lookup "login" d = Some login ->
  Py.lookup "name" d = Some nm ->
  let synthesized :=
    Py.PyStr (Py.str repr_str uid ++ "+" ++ Py.str repr_str login
                ++ "@users.noreply.github.com") in
  (Forall not_primary records ->
   GitHubOAuth.get_raw_user_info repr_str net token
   = Py.Ok (Py.PyDict (Py.dict_set "email" (Py.PyStr "") d))
   /\ Py.lookup "email" (Py.dict_set "email" (Py.PyStr "") d)
      = Some (Py.PyStr "")
   /\ GitHubOAuth.get_user_info repr_str net token
      = Py.Ok {| OAuthUserInfo.id := Py.PyStr (Py.str repr_str uid);
                 OAuthUserInfo.name := nm;
                 OAuthUserInfo.email := synthesized |})
  /\ (forall before primary after flag e,
         records = (before ++ Py.PyDict primary :: after)%list ->
         Forall not_primary before ->
         Py.lookup "primary" primary = Some flag ->
         Py.eq_True flag = true ->
         Py.lookup "email" primary = Some e ->
         Py.truthy e = true ->
         GitHubOAuth.get_user_info repr_str net token
         = Py.Ok {| OAuthUserInfo.id := Py.PyStr (Py.str repr_str uid);
                    OAuthUserInfo.name := nm;
                    OAuthUserInfo.email := e |})
  /\ (forall raw,
         Py.lookup "id" raw = Some uid ->
         Py.lookup "login" raw = Some login ->
         Py.lookup "name" raw = Some nm ->
         ((Py.lookup "email" raw = None
           \/ Py.lookup "email" raw = Some (Py.PyStr "")) ->
          GitHubOAuth._transform_user_info repr_str (Py.PyDict raw)
          = Py.Ok {| OAuthUserInfo.id := Py.PyStr (Py.str repr_str uid);
                     OAuthUserInfo.name := nm;
                     OAuthUserInfo.email := synthesized |})
         /\ (forall e,
                Py.lookup "email" raw = Some e -> Py.truthy e = true ->
                GitHubOAuth._transform_user_info repr_str (Py.PyDict raw)
                = Py.Ok {| OAuthUserInfo.id := Py.PyStr (Py.str repr_str uid);
                           OAuthUserInfo.name := nm;
                           OAuthUserInfo.email := e |})).
Proof.
  intros Hst Hu He Hid Hlogin Hname synthesized.
  assert (Hkeep : forall v,
             Py.lookup "id" (Py.dict_set "email" v d) = Some uid
             /\ Py.lookup "login" (Py.dict_set "email" v d) = Some login
             /\ Py.lookup "name" (Py.dict_set "email" v d) = Some nm).
  { intros v. rewrite !lookup_dict_set_other by discriminate. auto. }
  split; [|split].
  - intros Hnone.
    pose proof (github_raw_user_info repr_str net token d records []
                  Hst Hu He (next_primary_none records Hnone)) as Hraw.
    simpl in Hraw.
    split; [exact Hraw|]. split; [apply lookup_dict_set_same|].
    unfold GitHubOAuth.get_user_info, OAuth.get_user_info.
    rewrite Hraw. simpl Py.bind.
    destruct (Hkeep (Py.PyStr "")) as [H1 [H2 H3]].
    apply (proj1 (github_transform repr_str _ uid login nm H1 H2 H3)).
    right. exists (Py.PyStr ""). split; [apply lookup_dict_set_same|reflexivity].
  - intros before primary after flag e Hrec Hbefore Hflag Hprim Hemail Htrue.
    assert (Hnext : GitHubOAuth.next_primary records
                    = Py.Ok (Py.PyDict primary)).
    { rewrite Hrec. apply next_primary_found with (v := flag);
        [exact Hbefore | simpl; rewrite Hflag; reflexivity | exact Hprim]. }
    pose proof (github_raw_user_info repr_str net token d records primary
                  Hst Hu He Hnext) as Hraw.
    rewrite Hemail in Hraw.
    unfold GitHubOAuth.get_user_info, OAuth.get_user_info.
    rewrite Hraw. simpl Py.bind.
    destruct (Hkeep e) as [H1 [H2 H3]].
    apply (proj2 (github_transform repr_str _ uid login nm H1 H2 H3)).
    + apply lookup_dict_set_same.
    + exact Htrue.
  - intros raw H1 H2 H3. split.
    + intros Hempty.
      apply (proj1 (github_transform repr_str raw uid login nm H1 H2 H3)).
      destruct Hempty as [Hn|Hs]; [left; exact Hn|].
      right. exists (Py.PyStr ""). split; [exact Hs|reflexivity].
    + apply (proj2 (github_transform repr_str raw uid login nm H1 H2 H3)).
Qed.

(** The Octocat with only a secondary address, then with a primary one. *)
Lemma github_noreply_email_witness :
  GitHubOAuth.get_user_info Sample.repr_str
    (Sample.github (Sample.json_response 200 Sample.emails_secondary_only))
    (Py.PyStr "gho_token")
  = Py.Ok {| OAuthUserInfo.id := Py.PyStr "583231";
             OAuthUserInfo.name := Py.PyStr "The Octocat";
             OAuthUserInfo.email :=
               Py.PyStr "583231+octocat@users.noreply.github.com" |}
  /\ GitHubOAuth.get_user_info Sample.repr_str
       (Sample.github (Sample.json_response 200 Sample.emails_with_primary))
       (Py.PyStr "gho_token")
     = Py.Ok {| OAuthUserInfo.id := Py.PyStr "583231";
                OAuthUserInfo.name := Py.PyStr "The Octocat";
                OAuthUserInfo.email := Py.PyStr "cat@github.com" |}.
Proof.
  split.
  - destruct (github_noreply_email Sample.repr_str
                (Sample.github
                   (Sample.json_response 200 Sample.emails_secondary_only))
                (Py.PyStr "gho_token") Sample.octocat
                [Py.PyDict [("email", Py.PyStr "octo@example.com");
                            ("primary", Py.PyBool false);
                            ("verified", Py.PyBool true)]]
                (Py.PyInt 583231) (Py.PyStr "octocat")
                (Py.PyStr "The Octocat")
                eq_refl eq_refl eq_refl eq_refl eq_refl eq_refl)
      as [Hnone _].
    apply Hnone. constructor; [|constructor].
    exists (Py.PyBool false). split; reflexivity.
  - destruct (github_noreply_email Sample.repr_str
                (Sample.github
                   (Sample.json_response 200 Sample.emails_with_primary))
                (Py.PyStr "gho_token") Sample.octocat
                [Py.PyDict [("email", Py.PyStr "octo@example.com");
                            ("primary", Py.PyBool false)];
                 Py.PyDict [("email", Py.PyStr "cat@github.com");
                            ("primary", Py.PyBool true)]]
                (Py.PyInt 583231) (Py.PyStr "octocat")
                (Py.PyStr "The Octocat")
                eq_refl eq_refl eq_refl eq_refl eq_refl eq_refl)
      as [_ [Hprim _]].
    apply (Hprim [Py.PyDict [("email", Py.PyStr "octo@example.com");
                             ("primary", Py.PyBool false)]]
                 [("email", Py.PyStr "cat@github.com");
                  ("primary", Py.PyBool true)]
                 [] (Py.PyBool true) (Py.PyStr "cat@github.com")).
    + reflexivity.
    + constructor; [|constructor].
      exists (Py.PyBool false). split; reflexivity.
    + reflexivity.
    + reflexivity.
    + reflexivity.
    + reflexivity.
Defined.

(** The profile requests that do check the status. *)
Lemma github_user_failure_raises (repr_str : string -> string)
      (net : Requests.Request -> Requests.Response) (token : Py.value) :
  let response :=
    net (GitHubOAuth.user_request repr_str GitHubOAuth._USER_INFO_URL token) in
  400 <= Requests.status_code response < 600 ->
  GitHubOAuth.get_raw_user_info repr_str net token
  = Py.Raise (Py.HTTPError (Requests.status_code response)).
Proof.
  intros response [Hlo Hhi].
  unfold GitHubOAuth.get_raw_user_info, Requests.raise_for_status.
  fold response.
  apply Z.leb_le in Hlo. apply Z.ltb_lt in Hhi. rewrite Hlo, Hhi. reflexivity.
Qed.

Lemma google_failure_raises (repr_str : string -> string)
      (net : Requests.Request -> Requests.Response) (token : Py.value) :
  let response := net (GoogleOAuth.user_request repr_str token) in
  400 <= Requests.status_code response < 600 ->
  GoogleOAuth.get_raw_user_info repr_str net token
  = Py.Raise (Py.HTTPError (Requests.status_code response)).
Proof.
  intros response [Hlo Hhi].
  unfold GoogleOAuth.get_raw_user_info, Requests.raise_for_status.
  fold response.
  apply Z.leb_le in Hlo. apply Z.ltb_lt in Hhi. rewrite Hlo, Hhi. reflexivity.
Qed.

Lemma ailab_non_200_raises (repr_str : string -> string)
      (net : Requests.Request -> Requests.Response) (token : Py.value) :
  let response := net (AILabOAuth.user_request repr_str token) in
  Requests.status_code response <> 200 ->
  AILabOAuth.get_raw_user_info repr_str net token
  = Py.Raise (Py.ValueError ("Error getting user info: "
                               ++ Requests.text response)).
Proof.
  intros response Hne.
  unfold AILabOAuth.get_raw_user_info. fold response.
  apply Z.eqb_neq in Hne. rewrite Hne. reflexivity.
Qed.

(** C9 fails on GitHub's second request.  [/user] is answered with
    success and a profile, [/user/emails] with status 500 and an empty
    list: [raise_for_status] would raise on that answer, as it does for
    [/user], but [get_raw_user_info] never calls it there and returns a
    profile whose [email] is the empty string. *)
Theorem github_emails_failure_not_raised :
  let net := Sample.github Sample.emails_failure in
  let token := Py.PyStr "gho_token" in
  let emails :=
    net (GitHubOAuth.user_request Sample.repr_str
           GitHubOAuth._EMAIL_INFO_URL token) in
  In (GitHubOAuth.user_request Sample.repr_str
        GitHubOAuth._EMAIL_INFO_URL token)
     (Provider.profile_requests Sample.repr_str Provider.GitHub token)
  /\ Requests.status_code emails = 500
  /\ Requests.raise_for_status emails = Py.Raise (Py.HTTPError 500)
  /\ Provider.get_raw_user_info Sample.repr_str net Provider.GitHub token
     = Py.Ok (Py.PyDict [("login", Py.PyStr "octocat");
                         ("id", Py.PyInt 583231);
                         ("name", Py.PyStr "The Octocat");
                         ("email", Py.PyStr "")]).
Proof.
  cbv zeta. split; [simpl; auto|].
  split; [reflexivity|]. split; reflexivity.
Qed.

(** C10. On every dictionary, [AILabOAuth._transform_user_info] returns a
    record and raises nothing.  Without [userId] the record's [id] is the
    empty string; without [displayName] and [username] its [name] is the
    empty string; and when [email] and [username] are each absent or
    empty its [email] is ["@example.com"]. *)
Theorem ailab_transform_total (repr_str : string -> string) (d : Py.dict) :
  exists info,
    AILabOAuth._transform_user_info repr_str (Py.PyDict d) = Py.Ok info
    /\ (Py.lookup "userId" d = None ->
        OAuthUserInfo.id info = Py.PyStr "")
    /\ (Py.lookup "displayName" d = None ->
        Py.lookup "username" d = None ->
        OAuthUserInfo.name info = Py.PyStr "")
    /\ ((Py.lookup "email" d = None
         \/ Py.lookup "email" d = Some (Py.PyStr "")) ->
        (Py.lookup "username" d = None
         \/ Py.lookup "username" d = Some (Py.PyStr "")) ->
        OAuthUserInfo.email info = Py.PyStr "@example.com").
Proof.
  unfold AILabOAuth._transform_user_info. simpl.
  destruct (Py.lookup "userId" d) as [uid|] eqn:Eu;
    destruct (Py.lookup "username" d) as [un|] eqn:En;
    destruct (Py.lookup "displayName" d) as [dn|] eqn:Ed;
    destruct (Py.lookup "email" d) as [em|] eqn:Ee;
    simpl; eexists; (split; [reflexivity|]); simpl;
    repeat split; intros; try discriminate; try reflexivity;
    repeat match goal with
           | H : _ \/ _ |- _ => destruct H
           | H : Some _ = Some _ |- _ => injection H as ->
           | H : Some _ = None |- _ => discriminate H
           | H : None = Some _ |- _ => discriminate H
           end; reflexivity.
Qed.

(** A profile with nothing but a nickname, and an empty one. *)
Lemma ailab_transform_total_witness :
  AILabOAuth._transform_user_info Sample.repr_str (Py.PyDict [])
  = Py.Ok {| OAuthUserInfo.id := Py.PyStr "";
             OAuthUserInfo.name := Py.PyStr "";
             OAuthUserInfo.email := Py.PyStr "@example.com" |}.
Proof.
  destruct (ailab_transform_total Sample.repr_str []) as [info [E [Hi [Hn He]]]].
  rewrite E. f_equal.
  destruct info as [i n e]. simpl in *.
  rewrite (Hi eq_refl), (Hn eq_refl eq_refl),
    (He (or_introl eq_refl) (or_introl eq_refl)).
  reflexivity.
Defined.

(* ===================================================================== *)
(** * Part X: further properties of the handlers                          *)
(* ===================================================================== *)

Lemma find_account_Some (db : Database) (email : string) (a : Account.t) :
  EmailDatasetsApi.find_account db email = Some a ->
  In a (accounts db) /\ Account.email a = email.
Proof.
  intros H. apply first_filter_Some in H. destruct H as [Hin He].
  apply String.eqb_eq in He. split; assumption.
Qed.

Lemma find_tenant_account_Some (db : Database) (account : Account.t)
      (j : TenantAccountJoin.t) :
  EmailDatasetsApi.find_tenant_account db account = Some j ->
  In j (tenant_account_joins db)
  /\ TenantAccountJoin.account_id j = Account.id account.
Proof.
  unfold EmailDatasetsApi.find_tenant_account.
  destruct (Query.first
              (filter (fun j =>
                         (TenantAccountJoin.account_id j
                          =? Account.id account)%string
                         && Bool.eqb (TenantAccountJoin.current j) true)
                      (tenant_account_joins db))) as [j0|] eqn:E.
  - intros H. injection H as <-. apply first_filter_Some in E.
    destruct E as [Hin Hf]. apply andb_true_iff in Hf.
    destruct Hf as [Hf _]. apply String.eqb_eq in Hf. split; assumption.
  - intros H. apply first_filter_Some in H. destruct H as [Hin Hf].
    apply String.eqb_eq in Hf. split; assumption.
Qed.

(** Every answer of the dataset handler is the empty page or the listing
    of the resolved account and tenant. *)
Lemma get_datasets_shape (db : Database) (args : Args) :
  EmailDatasetsApi.get db args = empty_page (arg_page args) (arg_limit args)
  \/ exists account tenant_account,
      EmailDatasetsApi.find_account db (arg_email args) = Some account
      /\ EmailDatasetsApi.find_tenant_account db account = Some tenant_account
      /\ EmailDatasetsApi.get db args
         = listing Dataset.created_at
                   (EmailDatasetsApi.query db account tenant_account)
                   (arg_page args) (arg_limit args).
Proof.
  unfold EmailDatasetsApi.get.
  destruct (EmailDatasetsApi.find_account db (arg_email args))
    as [account|] eqn:Ea; [|left; reflexivity].
  destruct (EmailDatasetsApi.find_tenant_account db account)
    as [tj|] eqn:Et; [|left; reflexivity].
  right. exists account, tj.
  split; [first [exact Ea | reflexivity]|].
  split; [first [exact Et | reflexivity] | reflexivity].
Qed.

Lemma get_apps_shape (db : Database) (args : Args) :
  EmailAppsApi.get db args = empty_page (arg_page args) (arg_limit args)
  \/ exists account tenant_account,
      EmailAppsApi.find_account db (arg_email args) = Some account
      /\ EmailAppsApi.find_tenant_account db account = Some tenant_account
      /\ EmailAppsApi.get db args
         = listing App.created_at
                   (EmailAppsApi.query db account tenant_account)
                   (arg_page args) (arg_limit args).
Proof.
  unfold EmailAppsApi.get.
  destruct (EmailAppsApi.find_account db (arg_email args))
    as [account|] eqn:Ea; [|left; reflexivity].
  destruct (EmailAppsApi.find_tenant_account db account)
    as [tj|] eqn:Et; [|left; reflexivity].
  right. exists account, tj.
  split; [first [exact Ea | reflexivity]|].
  split; [first [exact Et | reflexivity] | reflexivity].
Qed.

Section ListingFacts.
Context {A : Type}.
Variable col : A -> Z.

Lemma firstn_plus (n m : nat) (l : list A) :
  firstn (n + m) l = (firstn n l ++ firstn m (skipn n l))%list.
Proof.
  revert l; induction n as [|n IH]; intros l; simpl.
  - reflexivity.
  - destruct l as [|x l]; simpl.
    + rewrite firstn_nil. reflexivity.
    + rewrite IH. reflexivity.
Qed.

Lemma NoDup_firstn (n : nat) (l : list A) : NoDup l -> NoDup (firstn n l).
Proof.
  revert l; induction n as [|n IH]; intros l Hl; simpl.
  - constructor.
  - destruct l as [|x l]; [constructor|].
    inversion Hl as [|? ? Hx Hl']; subst. constructor.
    + intros Hin. apply Hx. exact (In_firstn_sub col _ _ _ Hin).
    + apply IH, Hl'.
Qed.

Lemma NoDup_skipn (n : nat) (l : list A) : NoDup l -> NoDup (skipn n l).
Proof.
  revert l; induction n as [|n IH]; intros l Hl; simpl.
  - exact Hl.
  - destruct l as [|x l]; [constructor|].
    inversion Hl; subst. apply IH. assumption.
Qed.

(** Size facts of a listing; the empty page is the listing of no row. *)
Lemma listing_bounds (q : list A) (pg lim : Z) :
  0 <= lim ->
  let r := listing col q pg lim in
  0 <= total r
  /\ Z.of_nat (List.length (data r)) <= lim
  /\ Z.of_nat (List.length (data r)) <= total r.
Proof.
  intros Hlim r. subst r. unfold listing. simpl.
  unfold Query.all. rewrite limit_nonneg by exact Hlim.
  unfold Query.offset, Query.count.
  rewrite length_firstn, length_skipn, order_by_desc_length. lia.
Qed.

Lemma listing_has_more (q : list A) (pg lim : Z) :
  1 <= pg -> 0 <= lim ->
  let r := listing col q pg lim in
  let offset := (pg - 1) * lim in
  (has_more r = true -> Z.of_nat (List.length (data r)) = lim)
  /\ (has_more r = false -> offset <= total r ->
      offset + Z.of_nat (List.length (data r)) = total r)
  /\ (total r <= offset -> data r = [] /\ has_more r = false).
Proof.
  intros Hpg Hlim r offset.
  assert (Hoff : 0 <= offset) by (subst offset; nia).
  assert (Hlen : Z.of_nat (List.length (data r))
                 = Z.min lim (Z.max 0 (Query.count q - offset))).
  { subst r. unfold listing. simpl. unfold Query.all.
    apply page_length; assumption. }
  subst r. unfold listing in *. simpl in *. fold offset in Hlen |- *.
  split; [|split].
  - intros H. apply Z.ltb_lt in H. lia.
  - intros H Hle. apply Z.ltb_ge in H. lia.
  - intros Hle. split.
    + apply length_zero_iff_nil. lia.
    + apply Z.ltb_ge. lia.
Qed.

Lemma listing_NoDup (q : list A) (pg lim : Z) :
  NoDup q -> NoDup (data (listing col q pg lim)).
Proof.
  intros Hq. unfold listing. simpl. unfold Query.all, Query.limit, Query.offset.
  assert (Hs : NoDup (skipn (Z.to_nat ((pg - 1) * lim))
                        (Query.order_by_desc col q))).
  { apply NoDup_skipn.
    eapply Permutation_NoDup; [|exact Hq].
    apply Permutation_sym, order_by_desc_perm. }
  destruct (lim <? 0); [exact Hs | apply NoDup_firstn, Hs].
Qed.

(** Pages 1 to [n] of a listing, one after the other, are the first
    [n * lim] rows of the ordered result. *)
Lemma listing_pages (q : list A) (lim : Z) (n : nat) :
  0 <= lim ->
  List.concat (map (fun k => data (listing col q (Z.of_nat k) lim)) (seq 1 n))
  = firstn (n * Z.to_nat lim) (Query.order_by_desc col q).
Proof.
  intros Hlim. induction n as [|n IH].
  - reflexivity.
  - rewrite seq_S, map_app, concat_app, IH.
    cbn [map List.concat]. rewrite app_nil_r.
    unfold listing, Query.all. cbn [data].
    rewrite limit_nonneg by exact Hlim. unfold Query.offset.
    replace (Z.of_nat (1 + n) - 1) with (Z.of_nat n) by lia.
    rewrite Z2Nat.inj_mul, Nat2Z.id by lia.
    replace (S n * Z.to_nat lim)%nat
      with (n * Z.to_nat lim + Z.to_nat lim)%nat by lia.
    symmetry. apply firstn_plus.
Qed.

Lemma listing_head_newest (q : list A) (lim : Z) (x : A) (rest : list A) :
  data (listing col q 1 lim) = x :: rest ->
  forall y, In y q -> col y <= col x.
Proof.
  unfold listing. simpl. unfold Query.all, Query.limit, Query.offset. simpl.
  intros Hd y Hy.
  pose proof (order_by_desc_sorted col q) as Hs.
  apply (order_by_desc_In col) in Hy.
  destruct (Query.order_by_desc col q) as [|z l]; [destruct Hy|].
  assert (Hz : z = x).
  { destruct (lim <? 0); [congruence|].
    destruct (Z.to_nat lim); simpl in Hd; [discriminate | congruence]. }
  subst z. clear Hd.
  destruct Hy as [<-|Hy]; [lia|].
  assert (Htrans : Relations_1.Transitive (Query.desc col)).
  { intros a b c Hab Hbc. unfold Query.desc in *. lia. }
  pose proof (Sorted_extends Htrans Hs) as Hall.
  rewrite Forall_forall in Hall. apply Hall, Hy.
Qed.

End ListingFacts.

Lemma empty_page_listing {A : Type} (col : A -> Z) (pg lim : Z) :
  1 <= pg -> 0 <= lim -> empty_page pg lim = listing col [] pg lim.
Proof.
  intros Hpg Hlim. unfold empty_page, listing, Query.all, Query.limit,
    Query.offset, Query.count. simpl.
  rewrite skipn_nil, firstn_nil.
  replace ((pg - 1) * lim + lim <? 0) with false
    by (symmetry; apply Z.ltb_ge; nia).
  destruct (lim <? 0); reflexivity.
Qed.

Lemma get_datasets_listing (db : Database) (args : Args)
      (account : Account.t) (tenant_account : TenantAccountJoin.t) :
  EmailDatasetsApi.find_account db (arg_email args) = Some account ->
  EmailDatasetsApi.find_tenant_account db account = Some tenant_account ->
  EmailDatasetsApi.get db args
  = listing Dataset.created_at
            (EmailDatasetsApi.query db account tenant_account)
            (arg_page args) (arg_limit args).
Proof.
  intros Ha Ht. unfold EmailDatasetsApi.get. rewrite Ha, Ht. reflexivity.
Qed.

Lemma get_apps_listing (db : Database) (args : Args)
      (account : Account.t) (tenant_account : TenantAccountJoin.t) :
  EmailAppsApi.find_account db (arg_email args) = Some account ->
  EmailAppsApi.find_tenant_account db account = Some tenant_account ->
  EmailAppsApi.get db args
  = listing App.created_at (EmailAppsApi.query db account tenant_account)
            (arg_page args) (arg_limit args).
Proof.
  intros Ha Ht. unfold EmailAppsApi.get. rewrite Ha, Ht. reflexivity.
Qed.

(** For a valid page and limit every answer is a listing, of rows of the
    table. *)
Lemma get_datasets_listing_ex (db : Database) (args : Args) :
  1 <= arg_page args -> 0 <= arg_limit args ->
  exists q,
    EmailDatasetsApi.get db args
    = listing Dataset.created_at q (arg_page args) (arg_limit args)
    /\ incl q (datasets db).
Proof.
  intros Hpg Hlim.
  destruct (get_datasets_shape db args) as [E | [a [tj [_ [_ E]]]]].
  - exists []. split; [|intros x []].
    rewrite E. apply empty_page_listing; assumption.
  - exists (EmailDatasetsApi.query db a tj). split; [exact E|].
    intros d Hd. apply dataset_query_In in Hd. tauto.
Qed.

Lemma get_apps_listing_ex (db : Database) (args : Args) :
  1 <= arg_page args -> 0 <= arg_limit args ->
  exists q,
    EmailAppsApi.get db args
    = listing App.created_at q (arg_page args) (arg_limit args)
    /\ incl q (apps db).
Proof.
  intros Hpg Hlim.
  destruct (get_apps_shape db args) as [E | [a [tj [_ [_ E]]]]].
  - exists []. split; [|intros x []].
    rewrite E. apply empty_page_listing; assumption.
  - exists (EmailAppsApi.query db a tj). split; [exact E|].
    intros d Hd. apply app_query_In in Hd. tauto.
Qed.

Lemma length_filter_le {A : Type} (f : A -> bool) (l : list A) :
  (List.length (filter f l) <= List.length l)%nat.
Proof.
  induction l as [|x l IH]; simpl; [lia|].
  destruct (f x); simpl; lia.
Qed.

(** X1. Take a resolved account and tenant, a limit [>= 0], and a query
    result whose [created_at] values are pairwise distinct, so that it
    has one decreasing order only.  Then the pages 1, 2, ..., n requested
    with that limit hold, one after the other, the first [n * limit]
    rows of that order: no row is skipped or repeated between pages, and
    once [n * limit] reaches the total the pages hold exactly the rows of
    the query result.  (With equal [created_at] values the order of the
    tied rows is the engine's, query by query, and nothing is claimed.) *)
Theorem pages_cover_result (db : Database) (email : string) (lim : Z)
        (account : Account.t) (tenant_account : TenantAccountJoin.t)
        (n : nat) :
  0 <= lim ->
  EmailDatasetsApi.find_account db email = Some account ->
  EmailDatasetsApi.find_tenant_account db account = Some tenant_account ->
  let qd := EmailDatasetsApi.query db account tenant_account in
  let qa := EmailAppsApi.query db account tenant_account in
  (NoDup (map Dataset.created_at qd) ->
   (forall ordered,
       Permutation ordered qd ->
       Sorted (Query.desc Dataset.created_at) ordered ->
       pages (EmailDatasetsApi.get db) email lim n
       = firstn (n * Z.to_nat lim) ordered)
   /\ (Query.count qd <= Z.of_nat n * lim ->
       Permutation (pages (EmailDatasetsApi.get db) email lim n) qd))
  /\ (NoDup (map App.created_at qa) ->
      (forall ordered,
          Permutation ordered qa ->
          Sorted (Query.desc App.created_at) ordered ->
          pages (EmailAppsApi.get db) email lim n
          = firstn (n * Z.to_nat lim) ordered)
      /\ (Query.count qa <= Z.of_nat n * lim ->
          Permutation (pages (EmailAppsApi.get db) email lim n) qa)).
Proof.
  intros Hlim Ha Ht qd qa.
  assert (Hd : pages (EmailDatasetsApi.get db) email lim n
               = firstn (n * Z.to_nat lim)
                        (Query.order_by_desc Dataset.created_at qd)).
  { unfold pages. rewrite <- (listing_pages Dataset.created_at qd lim n Hlim).
    f_equal. apply map_ext. intros k.
    rewrite (get_datasets_listing db
               {| arg_email := email; arg_page := Z.of_nat k;
                  arg_limit := lim |} account tenant_account Ha Ht).
    reflexivity. }
  assert (Hp : pages (EmailAppsApi.get db) email lim n
               = firstn (n * Z.to_nat lim)
                        (Query.order_by_desc App.created_at qa)).
  { unfold pages. rewrite <- (listing_pages App.created_at qa lim n Hlim).
    f_equal. apply map_ext. intros k.
    rewrite (get_apps_listing db
               {| arg_email := email; arg_page := Z.of_nat k;
                  arg_limit := lim |} account tenant_account Ha Ht).
    reflexivity. }
  split.
  - intros Hnd. split.
    + intros ordered Hperm Hs. rewrite Hd.
      rewrite (order_by_desc_unique Dataset.created_at qd ordered Hnd Hperm Hs).
      reflexivity.
    + intros Hc. rewrite Hd, firstn_all2.
      * apply order_by_desc_perm.
      * rewrite order_by_desc_length. unfold Query.count in Hc. nia.
  - intros Hnd. split.
    + intros ordered Hperm Hs. rewrite Hp.
      rewrite (order_by_desc_unique App.created_at qa ordered Hnd Hperm Hs).
      reflexivity.
    + intros Hc. rewrite Hp, firstn_all2.
      * apply order_by_desc_perm.
      * rewrite order_by_desc_length. unfold Query.count in Hc. nia.
Qed.

(** Alice's two pages of 2 hold her three datasets, created at three
    different times. *)
Lemma pages_cover_result_witness :
  Permutation (pages (EmailDatasetsApi.get Sample.db)
                     "alice@example.com" 2 2)
              (EmailDatasetsApi.query Sample.db Sample.alice
                 (TenantAccountJoin.Build "tenant-main" "acc-alice" true)).
Proof.
  refine (proj2 (proj1
            (pages_cover_result Sample.db "alice@example.com" 2
               Sample.alice
               (TenantAccountJoin.Build "tenant-main" "acc-alice" true)
               2 _ eq_refl eq_refl) _) _).
  - lia.
  - vm_compute.
    repeat (constructor;
            [simpl; intros H;
             repeat (destruct H as [H|H]; [discriminate H|]); exact H|]).
    constructor.
  - vm_compute. discriminate.
Defined.

(** X2. For [page >= 1] and [limit >= 0], whatever the e-mail: when
    [has_more] is true the page is full ([limit] rows), and when it is
    false and the offset is within the total, the page ends with the last
    row (offset plus page size is the total). *)
Theorem has_more_meaning (db : Database) (args : Args) :
  1 <= arg_page args -> 0 <= arg_limit args ->
  let offset := (arg_page args - 1) * arg_limit args in
  let rd := EmailDatasetsApi.get db args in
  let ra := EmailAppsApi.get db args in
  ((has_more rd = true ->
    Z.of_nat (List.length (data rd)) = arg_limit args)
   /\ (has_more rd = false -> offset <= total rd ->
       offset + Z.of_nat (List.length (data rd)) = total rd))
  /\ ((has_more ra = true ->
       Z.of_nat (List.length (data ra)) = arg_limit args)
      /\ (has_more ra = false -> offset <= total ra ->
          offset + Z.of_nat (List.length (data ra)) = total ra)).
Proof.
  intros Hpg Hlim offset rd ra. split.
  - destruct (get_datasets_listing_ex db args Hpg Hlim) as [q [E _]].
    subst rd. rewrite E.
    destruct (listing_has_more Dataset.created_at q
                (arg_page args) (arg_limit args) Hpg Hlim) as [H1 [H2 _]].
    split; assumption.
  - destruct (get_apps_listing_ex db args Hpg Hlim) as [q [E _]].
    subst ra. rewrite E.
    destruct (listing_has_more App.created_at q
                (arg_page args) (arg_limit args) Hpg Hlim) as [H1 [H2 _]].
    split; assumption.
Qed.

Lemma has_more_meaning_witness :
  Z.of_nat (List.length
              (data (EmailDatasetsApi.get Sample.big_db
                       (Sample.alice_args 2 20)))) = 20.
Proof.
  refine (proj1 (proj1 (has_more_meaning Sample.big_db
                          (Sample.alice_args 2 20) _ _)) _).
  - simpl. lia.
  - simpl. lia.
  - reflexivity.
Defined.

(** X3. For [page >= 1] and [limit >= 0], a page whose offset is at or
    beyond the total is empty and has [has_more] false, in both
    handlers. *)
Theorem page_past_end_empty (db : Database) (args : Args) :
  1 <= arg_page args -> 0 <= arg_limit args ->
  let offset := (arg_page args - 1) * arg_limit args in
  (total (EmailDatasetsApi.get db args) <= offset ->
   data (EmailDatasetsApi.get db args) = []
   /\ has_more (EmailDatasetsApi.get db args) = false)
  /\ (total (EmailAppsApi.get db args) <= offset ->
      data (EmailAppsApi.get db args) = []
      /\ has_more (EmailAppsApi.get db args) = false).
Proof.
  intros Hpg Hlim offset. split.
  - destruct (get_datasets_listing_ex db args Hpg Hlim) as [q [E _]].
    rewrite E.
    apply (listing_has_more Dataset.created_at q
             (arg_page args) (arg_limit args) Hpg Hlim).
  - destruct (get_apps_listing_ex db args Hpg Hlim) as [q [E _]].
    rewrite E.
    apply (listing_has_more App.created_at q
             (arg_page args) (arg_limit args) Hpg Hlim).
Qed.

Lemma page_past_end_empty_witness :
  data (EmailDatasetsApi.get Sample.big_db (Sample.alice_args 4 20)) = []
  /\ has_more (EmailDatasetsApi.get Sample.big_db (Sample.alice_args 4 20))
     = false.
Proof.
  refine (proj1 (page_past_end_empty Sample.big_db
                   (Sample.alice_args 4 20) _ _) _).
  - simpl. lia.
  - simpl. lia.
  - vm_compute. discriminate.
Defined.

(** X4. With [limit = 0] both handlers return no row on every page, and
    [has_more] is true exactly when the total is positive: it never
    turns false by paging on. *)
Theorem zero_limit_never_ends (db : Database) (args : Args) :
  arg_limit args = 0 ->
  (data (EmailDatasetsApi.get db args) = []
   /\ has_more (EmailDatasetsApi.get db args)
      = (0 <? total (EmailDatasetsApi.get db args)))
  /\ (data (EmailAppsApi.get db args) = []
      /\ has_more (EmailAppsApi.get db args)
         = (0 <? total (EmailAppsApi.get db args))).
Proof.
  intros Hz. split.
  - destruct (get_datasets_shape db args) as [E | [a [tj [_ [_ E]]]]];
      rewrite E; [split; reflexivity|].
    unfold listing, Query.all, Query.limit. rewrite Hz. simpl.
    rewrite Z.mul_0_r. split; reflexivity.
  - destruct (get_apps_shape db args) as [E | [a [tj [_ [_ E]]]]];
      rewrite E; [split; reflexivity|].
    unfold listing, Query.all, Query.limit. rewrite Hz. simpl.
    rewrite Z.mul_0_r. split; reflexivity.
Qed.

Lemma zero_limit_never_ends_witness :
  has_more (EmailDatasetsApi.get Sample.big_db (Sample.alice_args 7 0)) = true.
Proof.
  rewrite (proj2 (proj1 (zero_limit_never_ends Sample.big_db
                           (Sample.alice_args 7 0) eq_refl))).
  reflexivity.
Defined.

(** X5. For [limit >= 0], whatever the e-mail and the page: [total] is
    between 0 and the size of the table, the page has at most [limit]
    rows and at most [total] rows, and [page] and [limit] are echoed. *)
Theorem response_bounds (db : Database) (args : Args) :
  0 <= arg_limit args ->
  let rd := EmailDatasetsApi.get db args in
  let ra := EmailAppsApi.get db args in
  (0 <= total rd <= Z.of_nat (List.length (datasets db))
   /\ Z.of_nat (List.length (data rd)) <= arg_limit args
   /\ Z.of_nat (List.length (data rd)) <= total rd
   /\ page rd = arg_page args /\ limit rd = arg_limit args)
  /\ (0 <= total ra <= Z.of_nat (List.length (apps db))
      /\ Z.of_nat (List.length (data ra)) <= arg_limit args
      /\ Z.of_nat (List.length (data ra)) <= total ra
      /\ page ra = arg_page args /\ limit ra = arg_limit args).
Proof.
  intros Hlim rd ra. split.
  - subst rd.
    destruct (get_datasets_shape db args) as [E | [a [tj [_ [_ E]]]]];
      rewrite E.
    + simpl. repeat split; lia.
    + destruct (listing_bounds Dataset.created_at
                  (EmailDatasetsApi.query db a tj) (arg_page args)
                  (arg_limit args) Hlim) as [H0 [H1 H2]].
      repeat split; try assumption.
      simpl. unfold Query.count, EmailDatasetsApi.query.
      apply inj_le, length_filter_le.
  - subst ra.
    destruct (get_apps_shape db args) as [E | [a [tj [_ [_ E]]]]];
      rewrite E.
    + simpl. repeat split; lia.
    + destruct (listing_bounds App.created_at
                  (EmailAppsApi.query db a tj) (arg_page args)
                  (arg_limit args) Hlim) as [H0 [H1 H2]].
      repeat split; try assumption.
      simpl. unfold Query.count, EmailAppsApi.query, EmailAppsApi.base_query.
      apply inj_le.
      destruct (EmailAppsApi.installed_app_ids db tj);
        (eapply Nat.le_trans; [apply length_filter_le|]);
        apply length_filter_le.
Qed.

Lemma response_bounds_witness :
  Z.of_nat (List.length
              (data (EmailAppsApi.get Sample.db (Sample.alice_args 1 2)))) <= 2.
Proof.
  refine (proj1 (proj2 (proj2 (response_bounds Sample.db
                                 (Sample.alice_args 1 2) _)))).
  simpl. lia.
Defined.

(** X6. Whatever the request, every row a handler returns belongs to a
    tenant that an account with the requested e-mail is joined to: rows
    of other tenants never appear, not even rows the account created
    there. *)
Theorem rows_confined_to_joined_tenant (db : Database) (args : Args) :
  (forall d, In d (data (EmailDatasetsApi.get db args)) ->
             exists a j,
               In a (accounts db) /\ Account.email a = arg_email args
               /\ In j (tenant_account_joins db)
               /\ TenantAccountJoin.account_id j = Account.id a
               /\ Dataset.tenant_id d = TenantAccountJoin.tenant_id j)
  /\ (forall p, In p (data (EmailAppsApi.get db args)) ->
                exists a j,
                  In a (accounts db) /\ Account.email a = arg_email args
                  /\ In j (tenant_account_joins db)
                  /\ TenantAccountJoin.account_id j = Account.id a
                  /\ App.tenant_id p = TenantAccountJoin.tenant_id j).
Proof.
  split.
  - intros d Hd.
    destruct (get_datasets_shape db args) as [E | [a [tj [Ha [Ht E]]]]];
      rewrite E in Hd; [destruct Hd|].
    unfold listing in Hd. simpl in Hd. unfold Query.all in Hd.
    apply page_In, dataset_query_In in Hd.
    destruct (find_account_Some db _ a Ha) as [Hin He].
    destruct (find_tenant_account_Some db a tj Ht) as [Hj Hacc].
    exists a, tj. tauto.
  - intros p Hp.
    destruct (get_apps_shape db args) as [E | [a [tj [Ha [Ht E]]]]];
      rewrite E in Hp; [destruct Hp|].
    unfold listing in Hp. simpl in Hp. unfold Query.all in Hp.
    apply page_In, app_query_In in Hp.
    destruct (find_account_Some db _ a Ha) as [Hin He].
    destruct (find_tenant_account_Some db a tj Ht) as [Hj Hacc].
    exists a, tj. tauto.
Qed.

(** X7. A handler returns rows of its table only, and when the table
    holds no row twice, neither does the page. *)
Theorem page_rows_distinct (db : Database) (args : Args) :
  (incl (data (EmailDatasetsApi.get db args)) (datasets db)
   /\ (NoDup (datasets db) -> NoDup (data (EmailDatasetsApi.get db args))))
  /\ (incl (data (EmailAppsApi.get db args)) (apps db)
      /\ (NoDup (apps db) -> NoDup (data (EmailAppsApi.get db args)))).
Proof.
  split.
  - destruct (get_datasets_shape db args) as [E | [a [tj [_ [_ E]]]]];
      rewrite E.
    + split; [intros x [] | intros _; constructor].
    + split.
      * intros d Hd. unfold listing in Hd. simpl in Hd.
        unfold Query.all in Hd.
        apply page_In, dataset_query_In in Hd. tauto.
      * intros Hnd. apply listing_NoDup.
        unfold EmailDatasetsApi.query. apply NoDup_filter, Hnd.
  - destruct (get_apps_shape db args) as [E | [a [tj [_ [_ E]]]]];
      rewrite E.
    + split; [intros x [] | intros _; constructor].
    + split.
      * intros p Hp. unfold listing in Hp. simpl in Hp.
        unfold Query.all in Hp.
        apply page_In, app_query_In in Hp. tauto.
      * intros Hnd. apply listing_NoDup.
        unfold EmailAppsApi.query, EmailAppsApi.base_query.
        destruct (EmailAppsApi.installed_app_ids db tj);
          apply NoDup_filter, NoDup_filter, Hnd.
Qed.

Lemma rows_confined_to_joined_tenant_witness :
  exists a j,
    In a (accounts Sample.db) /\ Account.email a = "alice@example.com"
    /\ In j (tenant_account_joins Sample.db)
    /\ TenantAccountJoin.account_id j = Account.id a
    /\ Dataset.tenant_id Sample.ds_team = TenantAccountJoin.tenant_id j.
Proof.
  apply (proj1 (rows_confined_to_joined_tenant Sample.db
                  (Sample.alice_args 1 20)) Sample.ds_team).
  vm_compute. auto.
Defined.

Lemma page_rows_distinct_witness :
  NoDup (data (EmailDatasetsApi.get Sample.db (Sample.alice_args 1 20))).
Proof.
  apply (proj2 (proj1 (page_rows_distinct Sample.db
                         (Sample.alice_args 1 20)))).
  unfold Sample.db. simpl.
  repeat (constructor;
          [simpl; intros H;
           repeat (destruct H as [H|H]; [discriminate H|]); exact H|]).
  constructor.
Defined.

(** X8. Whatever the request, an owner-only dataset is returned only to
    its creator: grant rows do not open it, and neither does sharing the
    tenant. *)
Theorem owner_only_dataset_private (db : Database) (args : Args)
        (d : Dataset.t) :
  In d (data (EmailDatasetsApi.get db args)) ->
  Dataset.permission d = ONLY_ME ->
  exists a, In a (accounts db) /\ Account.email a = arg_email args
            /\ Dataset.created_by d = Account.id a.
Proof.
  intros Hd Hperm.
  destruct (get_datasets_shape db args) as [E | [a [tj [Ha [_ E]]]]];
    rewrite E in Hd; [destruct Hd|].
  unfold listing in Hd. simpl in Hd. unfold Query.all in Hd.
  apply page_In, dataset_query_In in Hd.
  destruct (find_account_Some db _ a Ha) as [Hin He].
  exists a. split; [exact Hin|]. split; [exact He|].
  destruct Hd as [_ [_ [H | [H | [H _]]]]]; [exact H | congruence | congruence].
Qed.

Lemma owner_only_dataset_private_witness :
  exists a, In a (accounts Sample.db)
            /\ Account.email a = "alice@example.com"
            /\ Dataset.created_by Sample.ds_own = Account.id a.
Proof.
  apply (owner_only_dataset_private Sample.db (Sample.alice_args 1 20)
           Sample.ds_own).
  - vm_compute. auto.
  - reflexivity.
Defined.



(** X10. When page 1 is not empty, its first row is at least as recent
    as every row of every page of the same e-mail, in both handlers. *)
Theorem first_row_is_newest (db : Database) (email : string)
        (lim pg lim' : Z) :
  (forall x rest,
      data (EmailDatasetsApi.get db
              {| arg_email := email; arg_page := 1; arg_limit := lim |})
      = x :: rest ->
      forall y,
        In y (data (EmailDatasetsApi.get db
                      {| arg_email := email; arg_page := pg;
                         arg_limit := lim' |})) ->
        Dataset.created_at y <= Dataset.created_at x)
  /\ (forall x rest,
         data (EmailAppsApi.get db
                 {| arg_email := email; arg_page := 1; arg_limit := lim |})
         = x :: rest ->
         forall y,
           In y (data (EmailAppsApi.get db
                         {| arg_email := email; arg_page := pg;
                            arg_limit := lim' |})) ->
           App.created_at y <= App.created_at x).
Proof.
  split.
  - intros x rest Hx y Hy.
    destruct (get_datasets_shape db
                {| arg_email := email; arg_page := 1; arg_limit := lim |})
      as [E | [a [tj [Ha [Ht E]]]]]; rewrite E in Hx; [discriminate|].
    simpl in Ha.
    rewrite (get_datasets_listing db
               {| arg_email := email; arg_page := pg; arg_limit := lim' |}
               a tj Ha Ht) in Hy.
    unfold listing in Hy. simpl in Hy. unfold Query.all in Hy.
    apply page_In in Hy.
    apply (listing_head_newest Dataset.created_at _ lim x rest Hx y Hy).
  - intros x rest Hx y Hy.
    destruct (get_apps_shape db
                {| arg_email := email; arg_page := 1; arg_limit := lim |})
      as [E | [a [tj [Ha [Ht E]]]]]; rewrite E in Hx; [discriminate|].
    simpl in Ha.
    rewrite (get_apps_listing db
               {| arg_email := email; arg_page := pg; arg_limit := lim' |}
               a tj Ha Ht) in Hy.
    unfold listing in Hy. simpl in Hy. unfold Query.all in Hy.
    apply page_In in Hy.
    apply (listing_head_newest App.created_at _ lim x rest Hx y Hy).
Qed.

Lemma first_row_is_newest_witness :
  Dataset.created_at Sample.ds_granted <= Dataset.created_at Sample.ds_team.
Proof.
  apply (proj1 (first_row_is_newest Sample.db "alice@example.com" 1 2 1)
           Sample.ds_team [] eq_refl Sample.ds_granted).
  vm_compute. auto.
Defined.

(* ===================================================================== *)
(** * Part XI: further properties of the adapters                         *)
(* ===================================================================== *)

(** X11. For each provider, [get_access_token] looks at the decoded body
    of the token response only: two responses with the same body give
    the same outcome whatever their status codes and texts, so a token
    carried by an error-status response is accepted. *)
Theorem token_response_status_ignored
        (repr_str : string -> string)
        (net1 net2 : Requests.Request -> Requests.Response)
        (self : OAuth.t) (p : Provider.t) (code : Py.value) :
  Requests.body (net1 (Provider.token_request self p code))
  = Requests.body (net2 (Provider.token_request self p code)) ->
  Provider.get_access_token repr_str net1 self p code
  = Provider.get_access_token repr_str net2 self p code.
Proof.
  intros Hb. destruct p; simpl in *.
  - unfold GitHubOAuth.get_access_token, Requests.json. rewrite Hb.
    reflexivity.
  - unfold GoogleOAuth.get_access_token, Requests.json. rewrite Hb.
    reflexivity.
  - unfold AILabOAuth.get_access_token, Requests.json. rewrite Hb.
    reflexivity.
Qed.

(** A 401 answer that carries a token is taken like a 200 one. *)
Lemma token_response_status_ignored_witness :
  Provider.get_access_token Sample.repr_str
    (Sample.always
       (Sample.json_response 401 (Sample.flat_token (Py.PyStr "tok"))))
    Sample.self Provider.Google (Py.PyStr "code")
  = Py.Ok (Py.PyStr "tok").
Proof.
  rewrite (token_response_status_ignored Sample.repr_str
             (Sample.always
                (Sample.json_response 401
                   (Sample.flat_token (Py.PyStr "tok"))))
             (Sample.always
                (Sample.json_response 200
                   (Sample.flat_token (Py.PyStr "tok"))))
             Sample.self Provider.Google (Py.PyStr "code") eq_refl).
  reflexivity.
Defined.

(** X12. [AILabOAuth.get_access_token] called with a non-empty list as
    code sends the first element: the request and the outcome are those
    of the call with that element (itself not a non-empty list).  An
    empty list is sent as it is. *)
Theorem ailab_list_code_first_element
        (repr_str : string -> string)
        (net : Requests.Request -> Requests.Response) (self : OAuth.t)
        (c : Py.value) (rest : list Py.value) :
  (forall f r, c <> Py.PyList (f :: r)) ->
  AILabOAuth.token_request self (Py.PyList (c :: rest))
  = AILabOAuth.token_request self c
  /\ AILabOAuth.get_access_token repr_str net self (Py.PyList (c :: rest))
     = AILabOAuth.get_access_token repr_str net self c
  /\ Requests.payload (AILabOAuth.token_request self (Py.PyList []))
     = Requests.Json
         [("grant_type", Py.PyStr "authorization_code");
          ("client_id", Py.PyStr (OAuth.client_id self));
          ("client_secret", Py.PyStr (OAuth.client_secret self));
          ("code", Py.PyList []);
          ("redirect_uri", Py.PyStr (OAuth.redirect_uri self))].
Proof.
  intros Hc.
  assert (Hr : AILabOAuth.token_request self (Py.PyList (c :: rest))
               = AILabOAuth.token_request self c).
  { unfold AILabOAuth.token_request.
    destruct c as [| | | |l|]; try reflexivity.
    destruct l as [|f r]; [reflexivity|].
    exfalso. apply (Hc f r). reflexivity. }
  split; [exact Hr|]. split; [|reflexivity].
  unfold AILabOAuth.get_access_token. rewrite Hr. reflexivity.
Qed.

Lemma ailab_list_code_first_element_witness :
  AILabOAuth.token_request Sample.self
    (Py.PyList [Py.PyStr "abc"; Py.PyStr "def"])
  = AILabOAuth.token_request Sample.self (Py.PyStr "abc").
Proof.
  apply (ailab_list_code_first_element Sample.repr_str
           (Sample.always (Sample.json_response 200 Py.PyNone))
           Sample.self (Py.PyStr "abc") [Py.PyStr "def"]).
  intros f r. discriminate.
Defined.

(** What [next_primary] can answer: the empty dictionary, or a record of
    the list that is a dictionary flagged primary. *)
Lemma next_primary_Ok (records : list Py.value) (v : Py.value) :
  GitHubOAuth.next_primary records = Py.Ok v ->
  v = Py.PyDict []
  \/ exists rec flag,
      v = Py.PyDict rec /\ In v records
      /\ Py.lookup "primary" rec = Some flag /\ Py.eq_True flag = true.
Proof.
  induction records as [|r records IH]; simpl.
  - intros H. injection H as <-. left. reflexivity.
  - destruct (Py.getitem r "primary") as [flag|x] eqn:Eg; simpl;
      [|discriminate].
    destruct (Py.eq_True flag) eqn:Ef.
    + intros H. injection H as <-. right.
      destruct r as [| | | | |rec]; simpl in Eg; try discriminate.
      destruct (Py.lookup "primary" rec) as [fl|] eqn:El; [|discriminate].
      injection Eg as ->. exists rec, flag. auto.
    + intros H. destruct (IH H) as [-> | [rec [fl [-> [Hin Hrest]]]]].
      * left. reflexivity.
      * right. exists rec, fl. simpl. auto.
Qed.

(** X13. Whenever [GitHubOAuth.get_raw_user_info] returns, [/user] was
    not answered with an error status and holds a JSON object; the
    result is that object with every key other than [email] unchanged,
    and with [email] always set from [/user/emails]: to the e-mail of a
    record flagged primary there, or else to the empty string.  The
    [email] that [/user] itself reports is never kept. *)
Theorem github_profile_email_replaced
        (repr_str : string -> string)
        (net : Requests.Request -> Requests.Response)
        (token raw : Py.value) :
  GitHubOAuth.get_raw_user_info repr_str net token = Py.Ok raw ->
  let user :=
    net (GitHubOAuth.user_request repr_str GitHubOAuth._USER_INFO_URL token) in
  let emails :=
    net (GitHubOAuth.user_request repr_str GitHubOAuth._EMAIL_INFO_URL token) in
  ~ (400 <= Requests.status_code user < 600)
  /\ exists d m e,
      Requests.body user = Some (Py.PyDict d)
      /\ raw = Py.PyDict m
      /\ (forall k, k <> "email" -> Py.lookup k m = Py.lookup k d)
      /\ Py.lookup "email" m = Some e
      /\ (e = Py.PyStr ""
          \/ exists records rec flag,
              Requests.body emails = Some (Py.PyList records)
              /\ In (Py.PyDict rec) records
              /\ Py.lookup "primary" rec = Some flag
              /\ Py.eq_True flag = true
              /\ Py.lookup "email" rec = Some e).
Proof.
  intros H user emails. unfold GitHubOAuth.get_raw_user_info in H.
  fold user in H. fold emails in H.
  unfold Requests.raise_for_status, Requests.json in H.
  destruct ((400 <=? Requests.status_code user)
            && (Requests.status_code user <? 600)) eqn:Est;
    simpl in H; [discriminate|].
  split.
  { intros [Hlo Hhi]. apply Z.leb_le in Hlo. apply Z.ltb_lt in Hhi.
    rewrite Hlo, Hhi in Est. discriminate. }
  destruct (Requests.body user) as [u|] eqn:Eu; simpl in H; [|discriminate].
  destruct (Requests.body emails) as [ei|] eqn:Ee; simpl in H; [|discriminate].
  destruct (Py.iter ei) as [records|x] eqn:Ei; simpl in H; [|discriminate].
  destruct (GitHubOAuth.next_primary records) as [found|x] eqn:En;
    simpl in H; [|discriminate].
  destruct u as [| | | | |d]; simpl in H; try discriminate.
  destruct (next_primary_Ok records found En)
    as [-> | [rec [flag [-> [Hin [Hflag Htrue]]]]]]; simpl in H.
  - injection H as <-. exists d, (Py.dict_set "email" (Py.PyStr "") d),
      (Py.PyStr "").
    split; [reflexivity|]. split; [reflexivity|].
    split; [intros k Hk; apply lookup_dict_set_other, Hk|].
    split; [apply lookup_dict_set_same|]. left. reflexivity.
  - destruct (Py.lookup "email" rec) as [e|] eqn:El; injection H as <-.
    + exists d, (Py.dict_set "email" e d), e.
      split; [reflexivity|]. split; [reflexivity|].
      split; [intros k Hk; apply lookup_dict_set_other, Hk|].
      split; [apply lookup_dict_set_same|]. right.
      destruct ei as [| | |s|l|dd]; simpl in Ei; try discriminate.
      * exfalso. injection Ei as <-. clear - Hin.
        induction s as [|c s IH]; simpl in Hin; [exact Hin|].
        destruct Hin as [Hin|Hin]; [discriminate|]. apply IH, Hin.
      * injection Ei as Ei. subst. do 3 eexists.
        split; [reflexivity|]. split; [exact Hin|].
        split; [exact Hflag|]. split; [exact Htrue | exact El].
      * exfalso. injection Ei as <-. clear - Hin.
        induction dd as [|kv dd IH]; simpl in Hin; [exact Hin|].
        destruct Hin as [Hin|Hin]; [discriminate|]. apply IH, Hin.
    + exists d, (Py.dict_set "email" (Py.PyStr "") d), (Py.PyStr "").
      split; [reflexivity|]. split; [reflexivity|].
      split; [intros k Hk; apply lookup_dict_set_other, Hk|].
      split; [apply lookup_dict_set_same|]. left. reflexivity.
Qed.

Lemma github_profile_email_replaced_witness :
  ~ (400 <= 200 < 600).
Proof.
  exact (proj1 (github_profile_email_replaced Sample.repr_str
                  (Sample.github
                     (Sample.json_response 200 Sample.emails_with_primary))
                  (Py.PyStr "gho_token")
                  (Py.PyDict [("login", Py.PyStr "octocat");
                              ("id", Py.PyInt 583231);
                              ("name", Py.PyStr "The Octocat");
                              ("email", Py.PyStr "cat@github.com")])
                  eq_refl)).
Defined.

Lemma next_primary_raises (before after : list Py.value) (r : Py.value)
      (x : Py.exn) :
  Forall not_primary before ->
  Py.getitem r "primary" = Py.Raise x ->
  GitHubOAuth.next_primary (before ++ r :: after)%list = Py.Raise x.
Proof.
  intros Hb Hg. induction Hb as [|r0 before [v0 [Hg0 Hv0]] _ IH]; simpl.
  - rewrite Hg. reflexivity.
  - rewrite Hg0. simpl. rewrite Hv0. exact IH.
Qed.

(** X14. In [GitHubOAuth.get_raw_user_info], with [/user] answered, the
    e-mail records are tested in order until one is flagged primary.  A
    record met before that which has no [primary] key raises
    [KeyError], and one that is not a JSON object raises [TypeError];
    the profile is not returned. *)
Theorem github_untestable_record_raises
        (repr_str : string -> string)
        (net : Requests.Request -> Requests.Response)
        (token u r : Py.value) (before after : list Py.value) :
  Requests.raise_for_status
    (net (GitHubOAuth.user_request repr_str GitHubOAuth._USER_INFO_URL token))
  = Py.Ok tt ->
  Requests.body
    (net (GitHubOAuth.user_request repr_str GitHubOAuth._USER_INFO_URL token))
  = Some u ->
  Requests.body
    (net (GitHubOAuth.user_request repr_str GitHubOAuth._EMAIL_INFO_URL token))
  = Some (Py.PyList (before ++ r :: after)%list) ->
  Forall not_primary before ->
  (forall rec, r = Py.PyDict rec -> Py.lookup "primary" rec = None ->
               GitHubOAuth.get_raw_user_info repr_str net token
               = Py.Raise (Py.KeyError "primary"))
  /\ (Py.isinstance_dict r = false ->
      GitHubOAuth.get_raw_user_info repr_str net token
      = Py.Raise Py.TypeError).
Proof.
  intros Hst Hu He Hb.
  assert (Hx : forall x, Py.getitem r "primary" = Py.Raise x ->
                         GitHubOAuth.get_raw_user_info repr_str net token
                         = Py.Raise x).
  { intros x Hg. unfold GitHubOAuth.get_raw_user_info, Requests.json.
    rewrite Hst, Hu, He. simpl.
    rewrite (next_primary_raises before after r x Hb Hg). reflexivity. }
  split.
  - intros rec -> Hl. apply Hx. simpl. rewrite Hl. reflexivity.
  - intros Hd. apply Hx. destruct r; simpl in *; try reflexivity.
    discriminate.
Qed.

(** A record without the [primary] key. *)
Lemma github_untestable_record_raises_witness :
  GitHubOAuth.get_raw_user_info Sample.repr_str
    (Sample.github
       (Sample.json_response 200
          (Py.PyList [Py.PyDict [("email", Py.PyStr "octo@example.com")]])))
    (Py.PyStr "gho_token")
  = Py.Raise (Py.KeyError "primary").
Proof.
  apply (proj1 (github_untestable_record_raises Sample.repr_str
                  (Sample.github
                     (Sample.json_response 200
                        (Py.PyList
                           [Py.PyDict
                              [("email", Py.PyStr "octo@example.com")]])))
                  (Py.PyStr "gho_token") (Py.PyDict Sample.octocat)
                  (Py.PyDict [("email", Py.PyStr "octo@example.com")])
                  [] [] eq_refl eq_refl eq_refl (Forall_nil _))
               [("email", Py.PyStr "octo@example.com")] eq_refl eq_refl).
Defined.

(** X15. In [GitHubOAuth.get_raw_user_info], with [/user] answered, a
    [/user/emails] body that decodes to something other than a list
    raises [TypeError], whatever its status, unless it is an empty
    object or an empty string: so GitHub's error object
    [{"message": ...}] ends in [TypeError]. *)
Theorem github_emails_not_a_list_raises
        (repr_str : string -> string)
        (net : Requests.Request -> Requests.Response)
        (token u email_info : Py.value) :
  Requests.raise_for_status
    (net (GitHubOAuth.user_request repr_str GitHubOAuth._USER_INFO_URL token))
  = Py.Ok tt ->
  Requests.body
    (net (GitHubOAuth.user_request repr_str GitHubOAuth._USER_INFO_URL token))
  = Some u ->
  Requests.body
    (net (GitHubOAuth.user_request repr_str GitHubOAuth._EMAIL_INFO_URL token))
  = Some email_info ->
  (forall l, email_info <> Py.PyList l) ->
  email_info <> Py.PyDict [] ->
  email_info <> Py.PyStr "" ->
  GitHubOAuth.get_raw_user_info repr_str net token = Py.Raise Py.TypeError.
Proof.
  intros Hst Hu He Hl Hd Hs.
  unfold GitHubOAuth.get_raw_user_info, Requests.json.
  rewrite Hst, Hu, He. simpl.
  destruct email_info as [| | |s|l|d]; simpl; try reflexivity.
  - destruct s; [congruence | reflexivity].
  - exfalso. apply (Hl l). reflexivity.
  - destruct d as [|[k v] d]; [congruence | reflexivity].
Qed.

Lemma github_emails_not_a_list_raises_witness :
  GitHubOAuth.get_raw_user_info Sample.repr_str
    (Sample.github
       (Sample.json_response 401
          (Py.PyDict [("message", Py.PyStr "Bad credentials")])))
    (Py.PyStr "gho_token")
  = Py.Raise Py.TypeError.
Proof.
  apply (github_emails_not_a_list_raises Sample.repr_str
           (Sample.github
              (Sample.json_response 401
                 (Py.PyDict [("message", Py.PyStr "Bad credentials")])))
           (Py.PyStr "gho_token") (Py.PyDict Sample.octocat)
           (Py.PyDict [("message", Py.PyStr "Bad credentials")])
           eq_refl eq_refl eq_refl);
    intros; discriminate.
Defined.

(** X16. [GitHubOAuth._transform_user_info] on a dictionary returns a
    record exactly when [id] and [name] are there and either [email] is
    non-empty or [login] is there.  Otherwise it raises [KeyError]: for
    [id] first, then for [login] when the address has to be
    synthesized, then for [name].  On anything but a dictionary it
    raises [AttributeError]. *)
Theorem github_transform_required_keys
        (repr_str : string -> string) (raw : Py.dict) :
  let has_email :=
    match Py.lookup "email" raw with
    | Some e => Py.truthy e
    | None => false
    end in
  (Py.lookup "id" raw = None ->
   GitHubOAuth._transform_user_info repr_str (Py.PyDict raw)
   = Py.Raise (Py.KeyError "id"))
  /\ (Py.lookup "id" raw <> None -> has_email = false ->
      Py.lookup "login" raw = None ->
      GitHubOAuth._transform_user_info repr_str (Py.PyDict raw)
      = Py.Raise (Py.KeyError "login"))
  /\ (Py.lookup "id" raw <> None ->
      (has_email = true \/ Py.lookup "login" raw <> None) ->
      Py.lookup "name" raw = None ->
      GitHubOAuth._transform_user_info repr_str (Py.PyDict raw)
      = Py.Raise (Py.KeyError "name"))
  /\ (Py.lookup "id" raw <> None ->
      (has_email = true \/ Py.lookup "login" raw <> None) ->
      Py.lookup "name" raw <> None ->
      exists info,
        GitHubOAuth._transform_user_info repr_str (Py.PyDict raw)
        = Py.Ok info)
  /\ (forall v, Py.isinstance_dict v = false ->
                GitHubOAuth._transform_user_info repr_str v
                = Py.Raise Py.AttributeError).
Proof.
  intros has_email. subst has_email.
  unfold GitHubOAuth._transform_user_info. simpl.
  destruct (Py.lookup "email" raw) as [e|]; simpl;
    [destruct (Py.truthy e); simpl|];
    destruct (Py.lookup "id" raw) as [i|]; simpl;
    destruct (Py.lookup "login" raw) as [l|]; simpl;
    destruct (Py.lookup "name" raw) as [n|]; simpl;
    repeat split; intros;
    repeat match goal with
           | H : _ \/ _ |- _ => destruct H
           end;
    try congruence; eauto;
    match goal with
    | v : Py.value |- _ = Py.Raise Py.AttributeError =>
        destruct v; simpl in *; congruence
    end.
Qed.

(** A profile with an address but no [login], and one without [name]. *)
Lemma github_transform_required_keys_witness :
  (exists info,
      GitHubOAuth._transform_user_info Sample.repr_str
        (Py.PyDict [("id", Py.PyInt 7); ("name", Py.PyNone);
                    ("email", Py.PyStr "a@b.c")]) = Py.Ok info)
  /\ GitHubOAuth._transform_user_info Sample.repr_str
       (Py.PyDict [("id", Py.PyInt 7); ("email", Py.PyStr "a@b.c")])
     = Py.Raise (Py.KeyError "name").
Proof.
  split.
  - apply (github_transform_required_keys Sample.repr_str
             [("id", Py.PyInt 7); ("name", Py.PyNone);
              ("email", Py.PyStr "a@b.c")]).
    + discriminate.
    + left. reflexivity.
    + discriminate.
  - apply (github_transform_required_keys Sample.repr_str
             [("id", Py.PyInt 7); ("email", Py.PyStr "a@b.c")]).
    + discriminate.
    + left. reflexivity.
    + reflexivity.
Defined.

(** X17. [GoogleOAuth._transform_user_info] needs [sub] and [email]:
    without [sub] it raises [KeyError] for [sub], with [sub] but without
    [email] it raises [KeyError] for [email], and on anything but a
    dictionary it raises [TypeError].  With both keys it returns the
    text of [sub] as id, the empty name, and the [email] value as it is:
    no address is synthesized, even when it is null or empty. *)
Theorem google_transform_required_keys
        (repr_str : string -> string) (raw : Py.dict) :
  (Py.lookup "sub" raw = None ->
   GoogleOAuth._transform_user_info repr_str (Py.PyDict raw)
   = Py.Raise (Py.KeyError "sub"))
  /\ (Py.lookup "sub" raw <> None -> Py.lookup "email" raw = None ->
      GoogleOAuth._transform_user_info repr_str (Py.PyDict raw)
      = Py.Raise (Py.KeyError "email"))
  /\ (forall sub email,
         Py.lookup "sub" raw = Some sub ->
         Py.lookup "email" raw = Some email ->
         GoogleOAuth._transform_user_info repr_str (Py.PyDict raw)
         = Py.Ok {| OAuthUserInfo.id := Py.PyStr (Py.str repr_str sub);
                    OAuthUserInfo.name := Py.PyStr "";
                    OAuthUserInfo.email := email |})
  /\ (forall v, Py.isinstance_dict v = false ->
                GoogleOAuth._transform_user_info repr_str v
                = Py.Raise Py.TypeError).
Proof.
  unfold GoogleOAuth._transform_user_info. simpl.
  split; [|split; [|split]].
  - intros ->. reflexivity.
  - intros Hs ->. destruct (Py.lookup "sub" raw); [reflexivity|congruence].
  - intros sub email -> ->. reflexivity.
  - intros v Hv. destruct v; simpl in *; congruence.
Qed.

Lemma google_transform_required_keys_witness :
  GoogleOAuth._transform_user_info Sample.repr_str
    (Py.PyDict [("sub", Py.PyStr "1184"); ("email", Py.PyNone)])
  = Py.Ok {| OAuthUserInfo.id := Py.PyStr "1184";
             OAuthUserInfo.name := Py.PyStr "";
             OAuthUserInfo.email := Py.PyNone |}.
Proof.
  apply (proj1 (proj2 (proj2
           (google_transform_required_keys Sample.repr_str
              [("sub", Py.PyStr "1184"); ("email", Py.PyNone)])))
           (Py.PyStr "1184") Py.PyNone eq_refl eq_refl).
Defined.

Lemma bind_Ok {A B : Type} (m : Py.result A) (k : A -> Py.result B) (b : B) :
  Py.bind m k = Py.Ok b -> exists a, m = Py.Ok a /\ k a = Py.Ok b.
Proof.
  destruct m as [a|x]; simpl; [|discriminate].
  intros H. exists a. split; [reflexivity | exact H].
Qed.

(** X18. Whatever provider, network and token, the [id] of a record
    returned by [get_user_info] is a string: a numeric identifier of the
    provider has been rendered with [str]. *)
Theorem user_info_id_is_string
        (repr_str : string -> string)
        (net : Requests.Request -> Requests.Response)
        (p : Provider.t) (token : Py.value) (info : OAuthUserInfo.t) :
  Provider.get_user_info repr_str net p token = Py.Ok info ->
  exists s, OAuthUserInfo.id info = Py.PyStr s.
Proof.
  intros H. destruct p; simpl in H.
  - unfold GitHubOAuth.get_user_info, OAuth.get_user_info in H.
    apply bind_Ok in H. destruct H as [raw [_ H]].
    unfold GitHubOAuth._transform_user_info in H.
    apply bind_Ok in H. destruct H as [e [_ H]].
    apply bind_Ok in H. destruct H as [e' [_ H]].
    apply bind_Ok in H. destruct H as [i [_ H]].
    apply bind_Ok in H. destruct H as [n [_ H]].
    injection H as <-. simpl. eauto.
  - unfold GoogleOAuth.get_user_info, OAuth.get_user_info in H.
    apply bind_Ok in H. destruct H as [raw [_ H]].
    unfold GoogleOAuth._transform_user_info in H.
    apply bind_Ok in H. destruct H as [sub [_ H]].
    apply bind_Ok in H. destruct H as [e [_ H]].
    injection H as <-. simpl. eauto.
  - unfold AILabOAuth.get_user_info, OAuth.get_user_info in H.
    apply bind_Ok in H. destruct H as [raw [_ H]].
    unfold AILabOAuth._transform_user_info in H.
    apply bind_Ok in H. destruct H as [u [_ H]].
    apply bind_Ok in H. destruct H as [un [_ H]].
    apply bind_Ok in H. destruct H as [dn [_ H]].
    apply bind_Ok in H. destruct H as [e [_ H]].
    injection H as <-. simpl. eauto.
Qed.

(** GitHub's numeric id comes out as text. *)
Lemma user_info_id_is_string_witness :
  exists s, Py.PyStr "583231" = Py.PyStr s.
Proof.
  exact (user_info_id_is_string Sample.repr_str
           (Sample.github
              (Sample.json_response 200 Sample.emails_with_primary))
           Provider.GitHub (Py.PyStr "gho_token")
           {| OAuthUserInfo.id := Py.PyStr "583231";
              OAuthUserInfo.name := Py.PyStr "The Octocat";
              OAuthUserInfo.email := Py.PyStr "cat@github.com" |}
           eq_refl).
Defined.

(** What [AILabOAuth.get_raw_user_info] returns for status 200 and a
    JSON object. *)
Lemma ailab_raw_user_info_dict (repr_str : string -> string)
      (net : Requests.Request -> Requests.Response) (token : Py.value)
      (w : Py.dict) :
  Requests.status_code (net (AILabOAuth.user_request repr_str token)) = 200 ->
  Requests.body (net (AILabOAuth.user_request repr_str token))
  = Some (Py.PyDict w) ->
  AILabOAuth.get_raw_user_info repr_str net token
  = Py.Ok (match Py.lookup "data" w with
           | Some (Py.PyDict inner) => Py.PyDict inner
           | _ => Py.PyDict w
           end).
Proof.
  intros Hs Hb. unfold AILabOAuth.get_raw_user_info, Requests.json.
  rewrite Hs, Hb. simpl.
  destruct (Py.lookup "data" w) as [inner|] eqn:E; simpl; [|reflexivity].
  destruct inner; simpl; rewrite ?E; reflexivity.
Qed.

(** X19. With status 200, [AILabOAuth.get_raw_user_info] returns the
    object under [data] when the answer has one, whatever else the
    answer holds, and the answer itself otherwise.  So a profile wrapped
    as [{code, msg, data: profile}] and the same profile sent flat (it
    has no object under [data] itself) give the same raw profile and the
    same normalized record. *)
Theorem ailab_wrapped_and_flat_same_profile
        (repr_str : string -> string)
        (net_w net_f : Requests.Request -> Requests.Response)
        (token : Py.value) (w profile : Py.dict) :
  Requests.status_code (net_w (AILabOAuth.user_request repr_str token)) = 200 ->
  Requests.status_code (net_f (AILabOAuth.user_request repr_str token)) = 200 ->
  Requests.body (net_w (AILabOAuth.user_request repr_str token))
  = Some (Py.PyDict w) ->
  Py.lookup "data" w = Some (Py.PyDict profile) ->
  Requests.body (net_f (AILabOAuth.user_request repr_str token))
  = Some (Py.PyDict profile) ->
  (forall inner, Py.lookup "data" profile <> Some (Py.PyDict inner)) ->
  AILabOAuth.get_raw_user_info repr_str net_w token
  = Py.Ok (Py.PyDict profile)
  /\ AILabOAuth.get_raw_user_info repr_str net_f token
     = Py.Ok (Py.PyDict profile)
  /\ AILabOAuth.get_user_info repr_str net_w token
     = AILabOAuth.get_user_info repr_str net_f token.
Proof.
  intros Hsw Hsf Hbw Hd Hbf Hflat.
  assert (Hw : AILabOAuth.get_raw_user_info repr_str net_w token
               = Py.Ok (Py.PyDict profile)).
  { rewrite (ailab_raw_user_info_dict repr_str net_w token w Hsw Hbw), Hd.
    reflexivity. }
  assert (Hf : AILabOAuth.get_raw_user_info repr_str net_f token
               = Py.Ok (Py.PyDict profile)).
  { rewrite (ailab_raw_user_info_dict repr_str net_f token profile Hsf Hbf).
    destruct (Py.lookup "data" profile) as [v|] eqn:E; [|reflexivity].
    destruct v; try reflexivity. exfalso. apply (Hflat d). reflexivity. }
  split; [exact Hw|]. split; [exact Hf|].
  unfold AILabOAuth.get_user_info, OAuth.get_user_info.
  rewrite Hw, Hf. reflexivity.
Qed.

Lemma ailab_wrapped_and_flat_same_profile_witness :
  AILabOAuth.get_user_info Sample.repr_str
    (Sample.always
       (Sample.json_response 200
          (Py.PyDict [("code", Py.PyInt 200);
                      ("data", Py.PyDict [("userId", Py.PyInt 42);
                                          ("username", Py.PyStr "lin")])])))
    (Py.PyStr "tok")
  = AILabOAuth.get_user_info Sample.repr_str
      (Sample.always
         (Sample.json_response 200
            (Py.PyDict [("userId", Py.PyInt 42);
                        ("username", Py.PyStr "lin")])))
      (Py.PyStr "tok").
Proof.
  apply (ailab_wrapped_and_flat_same_profile Sample.repr_str
           (Sample.always
              (Sample.json_response 200
                 (Py.PyDict [("code", Py.PyInt 200);
                             ("data", Py.PyDict
                                        [("userId", Py.PyInt 42);
                                         ("username", Py.PyStr "lin")])])))
           (Sample.always
              (Sample.json_response 200
                 (Py.PyDict [("userId", Py.PyInt 42);
                             ("username", Py.PyStr "lin")])))
           (Py.PyStr "tok")
           [("code", Py.PyInt 200);
            ("data", Py.PyDict [("userId", Py.PyInt 42);
                                ("username", Py.PyStr "lin")])]
           [("userId", Py.PyInt 42); ("username", Py.PyStr "lin")]
           eq_refl eq_refl eq_refl eq_refl eq_refl).
  intros inner. discriminate.
Defined.

Lemma ailab_transform_returns (repr_str : string -> string) (d : Py.dict) :
  exists info,
    AILabOAuth._transform_user_info repr_str (Py.PyDict d) = Py.Ok info.
Proof.
  unfold AILabOAuth._transform_user_info. simpl.
  destruct (Py.lookup "userId" d); destruct (Py.lookup "username" d);
    destruct (Py.lookup "displayName" d); destruct (Py.lookup "email" d);
    simpl; eexists; reflexivity.
Qed.

(** X20. [AILabOAuth.get_user_info] on a profile answer: any status
    other than 200 raises [ValueError] carrying the response text,
    whatever the body; status 200 with a body that is not JSON raises
    [JSONDecodeError]; and status 200 with any JSON object returns a
    record: no key is required. *)
Theorem ailab_get_user_info_outcomes
        (repr_str : string -> string)
        (net : Requests.Request -> Requests.Response) (token : Py.value) :
  let response := net (AILabOAuth.user_request repr_str token) in
  (Requests.status_code response <> 200 ->
   AILabOAuth.get_user_info repr_str net token
   = Py.Raise (Py.ValueError ("Error getting user info: "
                                ++ Requests.text response)))
  /\ (Requests.status_code response = 200 ->
      Requests.body response = None ->
      AILabOAuth.get_user_info repr_str net token
      = Py.Raise Py.JSONDecodeError)
  /\ (forall w,
         Requests.status_code response = 200 ->
         Requests.body response = Some (Py.PyDict w) ->
         exists info,
           AILabOAuth.get_user_info repr_str net token = Py.Ok info).
Proof.
  intros response. split; [|split].
  - intros Hne. unfold AILabOAuth.get_user_info, OAuth.get_user_info.
    rewrite (ailab_non_200_raises repr_str net token Hne). reflexivity.
  - intros Hs Hb.
    unfold AILabOAuth.get_user_info, OAuth.get_user_info,
      AILabOAuth.get_raw_user_info, Requests.json.
    fold response. rewrite Hs, Hb. reflexivity.
  - intros w Hs Hb.
    unfold AILabOAuth.get_user_info, OAuth.get_user_info.
    rewrite (ailab_raw_user_info_dict repr_str net token w Hs Hb).
    simpl Py.bind.
    destruct (Py.lookup "data" w) as [v|]; [destruct v|];
      apply ailab_transform_returns.
Qed.

Lemma ailab_get_user_info_outcomes_witness :
  AILabOAuth.get_user_info Sample.repr_str
    (Sample.always
       {| Requests.status_code := 403;
          Requests.text := "forbidden";
          Requests.body := Some (Py.PyDict [("userId", Py.PyInt 42)]) |})
    (Py.PyStr "tok")
  = Py.Raise (Py.ValueError "Error getting user info: forbidden").
Proof.
  apply (proj1 (ailab_get_user_info_outcomes Sample.repr_str
                  (Sample.always
                     {| Requests.status_code := 403;
                        Requests.text := "forbidden";
                        Requests.body :=
                          Some (Py.PyDict [("userId", Py.PyInt 42)]) |})
                  (Py.PyStr "tok"))).
  simpl. discriminate.
Defined.

Lemma string_app_assoc (a b c : string) : ((a ++ b) ++ c = a ++ (b ++ c))%string.
Proof. induction a as [|x a IH]; simpl; [reflexivity | rewrite IH; reflexivity]. Qed.

Lemma string_app_inj_l (a x y : string) : (a ++ x = a ++ y)%string -> x = y.
Proof.
  induction a as [|c a IH]; simpl; intros H; [exact H|].
  injection H as H. apply IH, H.
Qed.

Lemma join_snoc (sep x y : string) (l : list string) :
  Py.join sep ((x :: l) ++ [y])%list
  = (Py.join sep (x :: l) ++ sep ++ y)%string.
Proof.
  revert x. induction l as [|z l IH]; intros x.
  - reflexivity.
  - change (Py.join sep ((x :: z :: l) ++ [y])%list)
      with (x ++ sep ++ Py.join sep ((z :: l) ++ [y])%list)%string.
    rewrite IH.
    change (Py.join sep (x :: z :: l))
      with (x ++ sep ++ Py.join sep (z :: l))%string.
    rewrite !string_app_assoc. reflexivity.
Qed.

Lemma urlencode_snoc (k v : string) (kv : string * string)
      (params : list (string * string)) :
  Urllib.urlencode ((kv :: params) ++ [(k, v)])%list
  = (Urllib.urlencode (kv :: params) ++ "&"
       ++ Urllib.quote_plus k ++ "=" ++ Urllib.quote_plus v)%string.
Proof.
  unfold Urllib.urlencode. rewrite map_app. cbn [map].
  apply join_snoc.
Qed.

(** How the invite token enters the URL, for each provider. *)
Lemma authorization_url_state (self : OAuth.t) (p : Provider.t) (t : string) :
  t <> "" ->
  Provider.get_authorization_url self p (Some t)
  = (Provider.get_authorization_url self p None
       ++ "&state=" ++ Urllib.quote_plus t)%string.
Proof.
  intros Ht. apply String.eqb_neq in Ht.
  destruct p;
    cbv beta iota zeta delta
        [Provider.get_authorization_url GitHubOAuth.get_authorization_url
         GoogleOAuth.get_authorization_url AILabOAuth.get_authorization_url];
    rewrite Ht; cbn [negb];
    rewrite urlencode_snoc, !string_app_assoc; reflexivity.
Qed.

(** X21. For each provider, [get_authorization_url] without an invite
    token and with an empty one give the same URL, with no [state]
    parameter; a non-empty token adds [&state=] and the quoted token at
    the end, leaving the rest of the URL unchanged. *)
Theorem authorization_url_state_parameter
        (self : OAuth.t) (p : Provider.t) :
  Provider.get_authorization_url self p (Some "")
  = Provider.get_authorization_url self p None
  /\ (forall t,
         t <> "" ->
         Provider.get_authorization_url self p (Some t)
         = (Provider.get_authorization_url self p None
              ++ "&state=" ++ Urllib.quote_plus t)%string).
Proof.
  split.
  - destruct p; reflexivity.
  - intros t Ht. apply authorization_url_state, Ht.
Qed.

Lemma authorization_url_state_parameter_witness :
  Provider.get_authorization_url Sample.self Provider.GitHub
    (Some "invite 42")
  = "https://github.com/login/oauth/authorize?client_id=client&redirect_uri=https%3A%2F%2Fapp.example.com%2Fcallback&scope=user%3Aemail&state=invite+42".
Proof.
  rewrite (proj2 (authorization_url_state_parameter Sample.self
                    Provider.GitHub) "invite 42").
  - reflexivity.
  - discriminate.
Defined.

Lemma hex_digits_safe (c : ascii) :
  Urllib.always_safe (Urllib.hex_digit (N_of_ascii c / 16)) = true
  /\ Urllib.always_safe (Urllib.hex_digit (N_of_ascii c mod 16)) = true.
Proof. destruct c as [[] [] [] [] [] [] [] []]; split; reflexivity. Qed.

Lemma In_list_ascii_app (a b : string) (c : ascii) :
  In c (list_ascii_of_string (a ++ b))
  <-> In c (list_ascii_of_string a) \/ In c (list_ascii_of_string b).
Proof.
  induction a as [|x a IH]; simpl.
  - tauto.
  - rewrite IH. tauto.
Qed.

Lemma quote_plus_bytes (s : string) (c : ascii) :
  In c (list_ascii_of_string (Urllib.quote_plus s)) ->
  Urllib.query_byte c = true.
Proof.
  induction s as [|a s IH]; simpl; [intros []|].
  destruct (Urllib.always_safe a) eqn:Ea; simpl.
  - intros [<-|H]; [|apply IH, H].
    unfold Urllib.query_byte. rewrite Ea. reflexivity.
  - destruct (N_of_ascii a =? 32)%N; simpl.
    + intros [<-|H]; [reflexivity | apply IH, H].
    + destruct (hex_digits_safe a) as [Hh Hl].
      intros [<-|[<-|[<-|H]]]; [reflexivity | | | apply IH, H];
        unfold Urllib.query_byte; rewrite ?Hh, ?Hl; reflexivity.
Qed.

Lemma urlencode_bytes (params : list (string * string)) (c : ascii) :
  In c (list_ascii_of_string (Urllib.urlencode params)) ->
  Urllib.query_byte c = true.
Proof.
  unfold Urllib.urlencode.
  induction params as [|[k v] params IH]; [intros []|].
  assert (Hkv : In c (list_ascii_of_string
                        (Urllib.quote_plus k ++ "=" ++ Urllib.quote_plus v)) ->
                Urllib.query_byte c = true).
  { rewrite !In_list_ascii_app. simpl.
    intros [H|[[<-|[]]|H]];
      [apply (quote_plus_bytes k), H | reflexivity
       | apply (quote_plus_bytes v), H]. }
  destruct params as [|kv params]; [exact Hkv|].
  change (Py.join "&" (map (fun '(k0, v0) =>
                              Urllib.quote_plus k0 ++ "="
                                ++ Urllib.quote_plus v0)
                           ((k, v) :: kv :: params)))
    with ((Urllib.quote_plus k ++ "=" ++ Urllib.quote_plus v) ++ "&"
          ++ Py.join "&" (map (fun '(k0, v0) =>
                                 Urllib.quote_plus k0 ++ "="
                                   ++ Urllib.quote_plus v0)
                              (kv :: params)))%string.
  rewrite !In_list_ascii_app.
  intros [H | [H | H]].
  - apply Hkv. rewrite !In_list_ascii_app. exact H.
  - simpl in H. destruct H as [<-|[]]. reflexivity.
  - apply IH, H.
Qed.

(** X22. Whatever the client id, the redirect URI and the invite token
    contain, the query part of every authorization URL is made of
    letters, digits and the bytes [_.-~+%=&] only: a space, [#], [?],
    [/] or [:] of a value is always escaped. *)
Theorem authorization_url_query_is_escaped
        (self : OAuth.t) (invite_token : option string) :
  (exists q,
      GitHubOAuth.get_authorization_url self invite_token
      = (GitHubOAuth._AUTH_URL ++ "?" ++ q)%string
      /\ forall c, In c (list_ascii_of_string q) ->
                   Urllib.query_byte c = true)
  /\ (exists q,
         GoogleOAuth.get_authorization_url self invite_token
         = (GoogleOAuth._AUTH_URL ++ "?" ++ q)%string
         /\ forall c, In c (list_ascii_of_string q) ->
                      Urllib.query_byte c = true)
  /\ (exists q,
         AILabOAuth.get_authorization_url self invite_token
         = (AILabOAuth._AUTH_URL ++ "?" ++ q)%string
         /\ forall c, In c (list_ascii_of_string q) ->
                      Urllib.query_byte c = true).
Proof.
  split; [|split]; eexists; (split; [reflexivity|]);
    intros c; apply urlencode_bytes.
Qed.

Lemma authorization_url_query_is_escaped_witness :
  Urllib.query_byte "%" = true.
Proof.
  destruct (proj1 (authorization_url_query_is_escaped Sample.self
                     (Some "a b#c"))) as [q [E H]].
  apply H.
  apply string_app_inj_l in E. apply (string_app_inj_l "?") in E.
  rewrite <- E. vm_compute.
  repeat (first [left; reflexivity | right]).
Defined.

Lemma unquote_quote_plus (s : string) :
  Urllib.unquote_plus (Urllib.quote_plus s) = s.
Proof.
  induction s as [|a s IH]; [reflexivity|].
  destruct a as [[] [] [] [] [] [] [] []]; cbn; rewrite IH; reflexivity.
Qed.

(** X23. [quote_plus] loses nothing: decoding the quoted value gives the
    value back.  So for each provider two different non-empty invite
    tokens never give the same authorization URL, and the [state] a
    provider echoes decodes to the invite token that was sent. *)
Theorem authorization_url_keeps_invite_token
        (self : OAuth.t) (p : Provider.t) (t1 t2 : string) :
  t1 <> "" -> t2 <> "" ->
  Urllib.unquote_plus (Urllib.quote_plus t1) = t1
  /\ (Provider.get_authorization_url self p (Some t1)
      = Provider.get_authorization_url self p (Some t2) ->
      t1 = t2).
Proof.
  intros H1 H2. split; [apply unquote_quote_plus|].
  rewrite (authorization_url_state self p t1 H1),
    (authorization_url_state self p t2 H2).
  intros H. apply string_app_inj_l in H.
  apply (string_app_inj_l "&state=") in H.
  rewrite <- (unquote_quote_plus t1), <- (unquote_quote_plus t2), H.
  reflexivity.
Qed.

Lemma authorization_url_keeps_invite_token_witness :
  Urllib.unquote_plus (Urllib.quote_plus "a b+c%/é") = "a b+c%/é".
Proof.
  apply (authorization_url_keeps_invite_token Sample.self Provider.AILab
           "a b+c%/é" "x"); discriminate.
Defined.
